(** * Course advisor: profile normalisation and course matching

    A shallow embedding of [src/rag_system.py] (class [CourseRAG]) and
    [src/user_input.py] (class [UserProfileProcessor]), with the properties
    of the matching engine, the normaliser and the validator/summariser.

    Modelling conventions.
    - A Python [str] is a [string]; the text is taken to be ASCII, so
      [str.lower], [str.title], [str.strip] and the regex class [\s] act on
      the ASCII letters and the ASCII white space only.
    - A Python [dict] used as a fixed lookup table is an association list in
      the order the source writes it (the source iterates two of them).
    - [seen_ids] is a [gset string]; a loop that appends to a list is a
      left fold whose accumulator is that list.
    - [max_results] is a Python [int], hence a [Z], and the slice
      [l[:m]] is written out for negative [m] too. *)

From Stdlib Require Import Ascii ZArith Sorting.Sorted.
From stdpp Require Import base list gmap strings pretty sorting.

Local Open Scope Z_scope.
Local Open Scope nat_scope.

(** ** Python strings *)

Module PyStr.

Definition code (c : ascii) : nat := nat_of_ascii c.

(** [str.isspace] on one ASCII character: TAB, LF, VT, FF, CR, the four
    separators FS GS RS US, and the blank. *)
Definition is_space (c : ascii) : bool :=
  ((9 <=? code c) && (code c <=? 13)) || ((28 <=? code c) && (code c <=? 32)).

Definition is_upper (c : ascii) : bool := (65 <=? code c) && (code c <=? 90).
Definition is_lower (c : ascii) : bool := (97 <=? code c) && (code c <=? 122).
Definition is_cased (c : ascii) : bool := is_upper c || is_lower c.

Definition lower_char (c : ascii) : ascii :=
  if is_upper c then ascii_of_nat (code c + 32) else c.
Definition upper_char (c : ascii) : ascii :=
  if is_lower c then ascii_of_nat (code c - 32) else c.

(** [s.lower()] *)
Fixpoint lower (s : string) : string :=
  match s with
  | EmptyString => EmptyString
  | String c s' => String (lower_char c) (lower s')
  end.

(** [s.title()]: a cased character is upper-cased when the character
    before it is not cased, and lower-cased otherwise. *)
Fixpoint title_from (prev_cased : bool) (s : string) : string :=
  match s with
  | EmptyString => EmptyString
  | String c s' =>
      if is_cased c
      then String (if prev_cased then lower_char c else upper_char c)
                  (title_from true s')
      else String c (title_from false s')
  end.

Definition title (s : string) : string := title_from false s.

(** [s.lstrip()], [s.rstrip()], [s.strip()] *)
Fixpoint lstrip (s : string) : string :=
  match s with
  | EmptyString => EmptyString
  | String c s' => if is_space c then lstrip s' else s
  end.

Fixpoint rstrip (s : string) : string :=
  match s with
  | EmptyString => EmptyString
  | String c s' =>
      match rstrip s' with
      | EmptyString => if is_space c then EmptyString else String c EmptyString
      | r => String c r
      end
  end.

Definition strip (s : string) : string := rstrip (lstrip s).

(** [s.startswith(p)] *)
Fixpoint startswith (p s : string) : bool :=
  match p, s with
  | EmptyString, _ => true
  | String a p', String b s' => if decide (a = b) then startswith p' s' else false
  | String _ _, EmptyString => false
  end.

(** [k in s] for two strings: [k] occurs in [s] as a contiguous block. *)
Fixpoint contains (k s : string) : bool :=
  startswith k s ||
  match s with
  | EmptyString => false
  | String _ s' => contains k s'
  end.

(** [s[:n]] and [s[n:]] for [n >= 0] *)
Fixpoint take_chars (n : nat) (s : string) : string :=
  match n, s with
  | S n', String c s' => String c (take_chars n' s')
  | _, _ => EmptyString
  end.

Fixpoint drop_chars (n : nat) (s : string) : string :=
  match n, s with
  | S n', String _ s' => drop_chars n' s'
  | _, _ => s
  end.

(** [sep.join(parts)] *)
Fixpoint join (sep : string) (parts : list string) : string :=
  match parts with
  | [] => EmptyString
  | [p] => p
  | p :: ps => p +:+ sep +:+ join sep ps
  end.

(** [s.split()]: the maximal runs of characters that are not white space.
    [split_from cur s] has read the characters of [cur] of the current
    run already. *)
Fixpoint split_from (cur : option string) (s : string) : list string :=
  match s with
  | EmptyString => match cur with Some w => [w] | None => [] end
  | String c s' =>
      if is_space c
      then match cur with
           | Some w => w :: split_from None s'
           | None => split_from None s'
           end
      else split_from (Some (match cur with
                             | Some w => w +:+ String c EmptyString
                             | None => String c EmptyString
                             end)) s'
  end.

Definition split (s : string) : list string := split_from None s.

(** [bool(s)]: a string is true when it is not empty. *)
Definition truthy (s : string) : bool :=
  match s with EmptyString => false | _ => true end.

End PyStr.

(** ** Data model *)

(** A course record of the catalog, a JSON object. The source reads [id]
    with [course['id']] and every other field with [course.get(field,
    default)], so those fields may be absent. Two records are equal, for
    [course in level_courses], when all their fields are. *)
Record Course := mkCourse {
  course_id : string;
  title : option string;
  description : option string;
  category : option string;
  level : option string;
  keywords : option (list string);
  credits : option Z;
  prerequisites : option string;
  semesters : option (list string)
}.

#[global] Instance Course_eq_dec : EqDecision Course.
Proof. solve_decision. Defined.

(** A user profile; an absent key reads as the empty string or list, which
    is what [profile.get(key, default)] gives. *)
Record Profile := mkProfile {
  education_level : string;
  interests : list string;
  career_goal : string;
  preferred_categories : list string;
  additional_info : string
}.

(** [d.get(k)] on a table written as a list of pairs. *)
Fixpoint dict_get {V} (k : string) (d : list (string * V)) : option V :=
  match d with
  | [] => None
  | (k', v) :: d' => if decide (k = k') then Some v else dict_get k d'
  end.

Arguments dict_get : simpl never.

(** [l[:m]] for a Python integer [m]: a negative [m] counts from the end. *)
Definition slice_to {A} (m : Z) (l : list A) : list A :=
  if (0 <=? m)%Z then take (Z.to_nat m) l
  else take (length l - Z.to_nat (- m)) l.

(** ** The matching engine, [rag_system.py] *)

Module CourseRAG.

Definition level_map : list (string * string) :=
  [ ("freshman", "1st year"); ("first year", "1st year"); ("1st year", "1st year");
    ("sophomore", "2nd year"); ("second year", "2nd year"); ("2nd year", "2nd year");
    ("junior", "3rd year"); ("third year", "3rd year"); ("3rd year", "3rd year");
    ("senior", "4th year"); ("fourth year", "4th year"); ("4th year", "4th year");
    ("graduate", "graduate"); ("grad", "graduate"); ("masters", "graduate");
    ("phd", "graduate") ].

Definition interest_mapping : list (string * list string) :=
  [ ("AI/ML", ["artificial intelligence"; "machine learning"; "data science"; "computer science"]);
    ("Web Dev", ["web"; "programming"; "computer science"; "development"]);
    ("Security", ["security"; "computer science"; "networking"]);
    ("Data Science", ["data"; "statistics"; "mathematics"; "computer science"; "analysis"]);
    ("Mobile Dev", ["mobile"; "programming"; "computer science"; "development"]);
    ("Game Dev", ["game"; "programming"; "computer science"; "development"]);
    ("Entrepreneurship", ["business"; "entrepreneurship"; "management"]);
    ("Management", ["business"; "management"; "leadership"]);
    ("Business Strategy", ["business"; "strategy"; "management"]);
    ("Finance/Accounting", ["finance"; "accounting"; "business"; "economics"]);
    ("Biology/Biotech", ["biology"; "science"; "biotechnology"]);
    ("Chemistry", ["chemistry"; "science"]);
    ("Mathematics", ["mathematics"; "statistics"; "calculus"]);
    ("Physics", ["physics"; "science"]);
    ("Nursing", ["nursing"; "healthcare"; "medical"]);
    ("Healthcare", ["healthcare"; "medical"; "health"]);
    ("Psychology", ["psychology"; "social"; "behavior"]);
    ("Communication", ["communication"; "media"; "writing"]);
    ("Education", ["education"; "teaching"; "learning"]);
    ("History/Humanities", ["history"; "humanities"; "literature"]);
    ("UI/UX Design", ["design"; "art"; "creative"; "computer"]);
    ("Music", ["music"; "performance"; "creative"]);
    ("Visual Arts", ["art"; "visual"; "creative"; "design"]);
    ("Theatre Arts", ["theatre"; "performance"; "art"; "creative"]) ].

Definition category_map : list (string * list string) :=
  [ ("business", ["Business"; "MBA"]);
    ("science", ["Natural Sciences"; "Computer Science"]);
    ("computer science", ["Computer Science"]);
    ("cs", ["Computer Science"]);
    ("programming", ["Computer Science"]);
    ("health", ["Health Sciences"; "Nursing"]);
    ("nursing", ["Nursing"]);
    ("medical", ["Health Sciences"]);
    ("medicine", ["Health Sciences"]);
    ("education", ["Education"]);
    ("teaching", ["Education"]);
    ("music", ["Music"]);
    ("art", ["Fine Arts"]);
    ("english", ["Humanities"]);
    ("literature", ["Humanities"]);
    ("history", ["Humanities"]);
    ("psychology", ["Social Sciences"]);
    ("math", ["Mathematics"]);
    ("mathematics", ["Mathematics"]);
    ("religion", ["Religion"]);
    ("communications", ["Communications"]) ].

Definition career_keywords : list (string * list string) :=
  [ ("doctor", ["biology"; "chemistry"; "anatomy"; "physiology"; "pre-med"; "medical"; "health"]);
    ("physician", ["biology"; "chemistry"; "anatomy"; "physiology"; "pre-med"; "medical"; "health"]);
    ("nurse", ["nursing"; "anatomy"; "physiology"; "healthcare"; "patient care"; "medical"]);
    ("teacher", ["education"; "psychology"; "classroom management"; "learning"; "teaching"]);
    ("business", ["business"; "management"; "marketing"; "finance"; "entrepreneurship"]);
    ("entrepreneur", ["business"; "management"; "marketing"; "finance"; "entrepreneurship"]);
    ("software engineer", ["computer science"; "programming"; "algorithms"; "data structures"]);
    ("programmer", ["computer science"; "programming"; "algorithms"; "data structures"]);
    ("data scientist", ["statistics"; "computer science"; "mathematics"; "data analysis"]);
    ("musician", ["music"; "performance"; "theory"; "composition"]);
    ("artist", ["art"; "studio"; "creative"; "visual arts"]);
    ("lawyer", ["english"; "communication"; "history"; "critical thinking"]);
    ("researcher", ["research methods"; "statistics"; "methodology"; "analysis"]);
    ("counselor", ["psychology"; "developmental"; "behavior"; "social"]);
    ("therapist", ["psychology"; "developmental"; "behavior"; "social"]) ].

(** [scored_courses.sort(key=lambda x: x[1], reverse=True)]: Python's sort
    is stable, also with [reverse=True], so the sorted list is the one a
    stable insertion sort by descending score produces. *)
Fixpoint insert_desc (x : Course * nat) (l : list (Course * nat)) : list (Course * nat) :=
  match l with
  | [] => [x]
  | y :: l' => if x.2 <? y.2 then y :: insert_desc x l' else x :: l
  end.

Definition sort_desc (l : list (Course * nat)) : list (Course * nat) :=
  foldr insert_desc [] l.

(** The loop that expands the keywords through [interest_mapping]. *)
Definition expand_step (expanded_keywords : list string) (keyword : string) : list string :=
  let expanded_keywords := expanded_keywords ++ [PyStr.lower keyword] in
  match dict_get keyword interest_mapping with
  | Some more => expanded_keywords ++ more
  | None => expanded_keywords
  end.

Definition expand_keywords (keywords : list string) : list string :=
  foldl expand_step [] keywords.

Definition search_text (course : Course) : string :=
  PyStr.join " " [ PyStr.lower (default "" (title course));
                   PyStr.lower (default "" (description course));
                   PyStr.lower (default "" (category course));
                   PyStr.lower (PyStr.join " " (default [] (keywords course))) ].

(** The body of the inner loop, one expanded keyword against one course. *)
Definition score_step (course : Course) (score : nat) (keyword : string) : nat :=
  let keyword := PyStr.strip (PyStr.lower keyword) in
  if PyStr.contains keyword (search_text course) then
    if PyStr.contains keyword (PyStr.lower (default "" (title course))) then score + 3
    else if PyStr.contains keyword (PyStr.lower (default "" (description course))) then score + 2
    else score + 1
  else score.

Definition course_score (expanded_keywords : list string) (course : Course) : nat :=
  foldl (score_step course) 0 expanded_keywords.

(** The body of the outer loop: a course is recorded when it scored. *)
Definition collect_step (expanded_keywords : list string)
    (scored_courses : list (Course * nat)) (course : Course) : list (Course * nat) :=
  let score := course_score expanded_keywords course in
  if 0 <? score then scored_courses ++ [(course, score)] else scored_courses.

Section Engine.

(** [self.courses], the catalog the engine was built with *)
Variable courses : list Course.

Definition search_courses_by_level (lvl : string) : list Course :=
  let normalized_level := default lvl (dict_get (PyStr.lower lvl) level_map) in
  filter (λ course, PyStr.lower (default "" (level course)) = PyStr.lower normalized_level)
         courses.

Definition search_courses_by_keywords (keywords : list string) (max_results : Z)
    : list Course :=
  let expanded_keywords := expand_keywords keywords in
  let scored_courses := foldl (collect_step expanded_keywords) [] courses in
  (slice_to max_results (sort_desc scored_courses)).*1.

Definition search_courses_by_category (cat : string) : list Course :=
  let target_categories := default [cat] (dict_get (PyStr.lower cat) category_map) in
  filter (λ course,
            existsb (λ c, PyStr.contains (PyStr.lower c)
                                         (PyStr.lower (default "" (category course))))
                    target_categories = true)
         courses.

(** The loop over [career_keywords.items()]. *)
Definition career_step (goal : string) (kws : list string)
    (entry : string * list string) : list string :=
  if PyStr.contains (PyStr.lower entry.1) (PyStr.lower goal) then kws ++ entry.2 else kws.

Definition career_goal_keywords (goal : string) : list string :=
  match foldl (career_step goal) [] career_keywords with
  | [] => PyStr.split (PyStr.lower goal)
  | kws => kws
  end.

(** The call passes no [max_results], so the default of 10 applies. *)
Definition search_courses_by_career_goal (goal : string) : list Course :=
  search_courses_by_keywords (career_goal_keywords goal) 10.

(** The merge loop: keep a course whose id is new and which is in the
    level pass. The state is [(seen_ids, unique_courses)]. *)
Definition merge_step (level_courses : list Course)
    (st : gset string * list Course) (course : Course) : gset string * list Course :=
  if bool_decide (course_id course ∉ st.1) && bool_decide (course ∈ level_courses)
  then ({[course_id course]} ∪ st.1, st.2 ++ [course])
  else st.

(** The backfill loop over the level pass. *)
Definition backfill_step (st : gset string * list Course) (course : Course)
    : gset string * list Course :=
  if bool_decide (course_id course ∉ st.1) && bool_decide (length st.2 < 12)
  then ({[course_id course]} ∪ st.1, st.2 ++ [course])
  else st.

Definition get_recommended_courses (user_profile : Profile) : list Course :=
  let lvl := education_level user_profile in
  let level_courses :=
    if PyStr.truthy lvl then search_courses_by_level lvl else courses in
  let interest_courses :=
    match interests user_profile with
    | [] => level_courses
    | ins => foldl (λ acc interest, acc ++ search_courses_by_keywords [interest] 5) [] ins
    end in
  let goal := career_goal user_profile in
  let career_courses :=
    if PyStr.truthy goal then search_courses_by_career_goal goal else [] in
  let category_courses :=
    foldl (λ acc cat, acc ++ search_courses_by_category cat) []
          (preferred_categories user_profile) in
  let all_courses := career_courses ++ interest_courses ++ category_courses in
  let st := foldl (merge_step level_courses) (∅, []) all_courses in
  let st := if bool_decide (length st.2 < 8) then foldl backfill_step st level_courses
            else st in
  take 12 st.2.

(** [get_course_by_id]: the first course of the catalog with the id; the
    empty dictionary the source returns when there is none is [None]. *)
Fixpoint find_by_id (id : string) (l : list Course) : option Course :=
  match l with
  | [] => None
  | course :: l' =>
      if decide (course_id course = id) then Some course else find_by_id id l'
  end.

Definition get_course_by_id (id : string) : option Course := find_by_id id courses.

Definition get_courses_by_semester (semester : string) : list Course :=
  filter (λ course,
            PyStr.lower semester ∈ (PyStr.lower <$> default [] (semesters course)))
         courses.

End Engine.

(** The text of one course for the language model; a missing field reads
    ["N/A"], missing prerequisites read ["None"]. The credits of the model
    are integers, printed in decimal. *)
Definition newline : string := String "010"%char EmptyString.

Definition format_course_for_llm (course : Course) : string :=
  newline
  +:+ "Course: " +:+ default "N/A" (title course)
  +:+ " (" +:+ course_id course +:+ ")" +:+ newline
  +:+ "Level: " +:+ default "N/A" (level course) +:+ newline
  +:+ "Category: " +:+ default "N/A" (category course) +:+ newline
  +:+ "Credits: " +:+ from_option pretty "N/A" (credits course) +:+ newline
  +:+ "Description: " +:+ default "N/A" (description course) +:+ newline
  +:+ "Prerequisites: " +:+ default "None" (prerequisites course) +:+ newline
  +:+ "Available: " +:+ PyStr.join ", " (default [] (semesters course)) +:+ newline.

(** The loop of [get_context_for_llm] over [enumerate(courses, 1)]. *)
Definition context_step (context : string) (entry : nat * Course) : string :=
  context +:+ pretty entry.1 +:+ ". " +:+ format_course_for_llm entry.2 +:+ newline.

Definition get_context_for_llm (recommended_courses : list Course) : string :=
  match recommended_courses with
  | [] => "No courses found matching the criteria."
  | _ =>
      foldl context_step ("Here are the recommended courses:" +:+ newline +:+ newline)
            (zip (seq 1 (length recommended_courses)) recommended_courses)
  end.

End CourseRAG.

(** ** The profile normaliser, validator and summariser, [user_input.py] *)

(** What [raw_input.get('interests', [])] may hold: one string, a list (of
    strings: [str(x)] is [x]), or anything else. *)
Inductive InterestsInput :=
| Text (s : string)
| Items (l : list string)
| Other.

Record RawInput := mkRawInput {
  raw_education_level : string;
  raw_interests : InterestsInput;
  raw_career_goal : string;
  raw_additional_info : string
}.

Record Validation := mkValidation {
  errors : list string;
  warnings : list string
}.

Module UserProfileProcessor.

Definition level_map : list (string * string) :=
  [ ("freshman", "1st year"); ("first year", "1st year"); ("1", "1st year");
    ("1st", "1st year");
    ("sophomore", "2nd year"); ("second year", "2nd year"); ("2", "2nd year");
    ("2nd", "2nd year");
    ("junior", "3rd year"); ("third year", "3rd year"); ("3", "3rd year");
    ("3rd", "3rd year");
    ("senior", "4th year"); ("fourth year", "4th year"); ("4", "4th year");
    ("4th", "4th year");
    ("graduate", "graduate"); ("grad", "graduate"); ("masters", "graduate");
    ("master's", "graduate"); ("phd", "graduate"); ("doctoral", "graduate") ].

Definition _process_education_level (level_input : string) : string :=
  if negb (PyStr.truthy level_input) then ""
  else
    let level_clean := PyStr.strip (PyStr.lower level_input) in
    default level_input (dict_get level_clean level_map).

(** [re.split(r'[,;]|\sand\s', s)]: the pieces of [s] between the matches,
    which are found from left to right and do not overlap. [skip] counts
    the characters of the current match still to pass over. *)
Definition and_at (s : string) : bool :=
  match s with
  | String c0 (String c1 (String c2 (String c3 (String c4 _)))) =>
      PyStr.is_space c0 && bool_decide (c1 = "a"%char) && bool_decide (c2 = "n"%char)
      && bool_decide (c3 = "d"%char) && PyStr.is_space c4
  | _ => false
  end.

Definition is_delim (c : ascii) : bool :=
  bool_decide (c = ","%char) || bool_decide (c = ";"%char).

Fixpoint re_split (skip : nat) (s : string) : list string :=
  match s with
  | EmptyString => [EmptyString]
  | String c s' =>
      match skip with
      | S k => re_split k s'
      | O =>
          if is_delim c then EmptyString :: re_split 0 s'
          else if and_at s then EmptyString :: re_split 4 s'
          else match re_split 0 s' with
               | piece :: pieces => String c piece :: pieces
               | [] => [String c EmptyString]
               end
      end
  end.

(** [re.sub(r'^(p1|p2|...)\s+', '', s)]: the first alternative that is a
    prefix of [s] and is followed by white space is removed together with
    all the white space after it. *)
Definition interest_prefixes : list string :=
  ["i like"; "i love"; "i enjoy"; "i am interested in"; "interested in"].

Fixpoint sub_prefix (alts : list string) (s : string) : string :=
  match alts with
  | [] => s
  | p :: alts' =>
      let rest := PyStr.drop_chars (String.length p) s in
      if PyStr.startswith p s
         && match rest with String c _ => PyStr.is_space c | EmptyString => false end
      then PyStr.lstrip rest
      else sub_prefix alts' s
  end.

(** The cleaning loop; [is_list] is [isinstance(interests_input, list)]. *)
Definition clean_step (is_list : bool) (cleaned_interests : list string)
    (interest : string) : list string :=
  if is_list then cleaned_interests ++ [interest]
  else
    let interest := sub_prefix interest_prefixes (PyStr.lower interest) in
    let interest := PyStr.strip interest in
    if 1 <? String.length interest then cleaned_interests ++ [interest]
    else cleaned_interests.

Definition stripped_nonempty (l : list string) : list string :=
  PyStr.strip <$> filter (λ interest, PyStr.truthy (PyStr.strip interest) = true) l.

Definition _process_interests (interests_input : InterestsInput) : list string :=
  match interests_input with
  | Text s =>
      let interests := stripped_nonempty (re_split 0 (PyStr.lower s)) in
      take 15 (foldl (clean_step false) [] interests)
  | Items l =>
      let interests := stripped_nonempty l in
      take 15 (foldl (clean_step true) [] interests)
  | Other => []
  end.

Definition prefixes_to_remove : list string :=
  [ "i want to be a"; "i want to be an"; "i want to become a"; "i want to become an";
    "i would like to be a"; "i would like to be an"; "becoming a"; "becoming an";
    "my goal is to be a"; "my goal is to be an"; "i plan to be a"; "i plan to be an" ].

(** The loop with [break]: only the first matching prefix is removed. *)
Fixpoint remove_first_prefix (prefixes : list string) (career_clean : string) : string :=
  match prefixes with
  | [] => career_clean
  | p :: prefixes' =>
      if PyStr.startswith p career_clean
      then PyStr.strip (PyStr.drop_chars (String.length p) career_clean)
      else remove_first_prefix prefixes' career_clean
  end.

Definition _process_career_goal (career_input : string) : string :=
  if negb (PyStr.truthy career_input) then ""
  else remove_first_prefix prefixes_to_remove (PyStr.strip (PyStr.lower career_input)).

Definition category_keywords : list (string * list string) :=
  [ ("Business", ["business"; "management"; "marketing"; "finance"; "economics"; "entrepreneurship"]);
    ("Natural Sciences", ["science"; "biology"; "chemistry"; "physics"; "environmental"]);
    ("Computer Science", ["computer"; "programming"; "technology"; "coding"; "software"; "data"]);
    ("Health Sciences", ["health"; "medicine"; "medical"; "nursing"; "pharmacy"; "therapy"]);
    ("Social Sciences", ["psychology"; "sociology"; "anthropology"; "political"; "social work"]);
    ("Humanities", ["history"; "literature"; "philosophy"; "languages"; "cultural studies"]);
    ("Fine Arts", ["art"; "creative"; "visual"; "painting"; "drawing"; "design"]);
    ("Music", ["music"; "musical"; "instrument"; "singing"; "composition"]);
    ("Education", ["education"; "teaching"; "children"; "learning"; "classroom"]);
    ("Mathematics", ["math"; "statistics"; "calculus"; "algebra"; "numbers"]);
    ("Communications", ["communication"; "media"; "journalism"; "writing"; "public relations"]) ].

(** The inner loop body: one interest against one table entry. *)
Definition category_step (interest : string) (categories : list string)
    (entry : string * list string) : list string :=
  if existsb (λ keyword, PyStr.contains keyword interest) entry.2
  then if bool_decide (entry.1 ∉ categories) then categories ++ [entry.1] else categories
  else categories.

Definition _derive_categories_from_interests (interests_input : InterestsInput)
    : list string :=
  let interests := _process_interests interests_input in
  foldl (λ categories interest, foldl (category_step interest) categories category_keywords)
        [] interests.

Definition process_user_input (raw_input : RawInput) : Profile :=
  {| education_level := _process_education_level (raw_education_level raw_input);
     interests := _process_interests (raw_interests raw_input);
     career_goal := _process_career_goal (raw_career_goal raw_input);
     preferred_categories := _derive_categories_from_interests (raw_interests raw_input);
     additional_info := PyStr.strip (raw_additional_info raw_input) |}.

Definition warn_level : string :=
  "Education level not specified. Recommendations will include all levels.".
Definition warn_no_interests : string :=
  "No interests specified. Consider adding some to get better recommendations.".
Definition warn_many_interests : string :=
  "Many interests specified. Consider focusing on your top priorities.".
Definition warn_career : string :=
  "Career goal not specified. Adding one can help tailor recommendations.".

Definition validate_profile (profile : Profile) : Validation :=
  let errors : list string := [] in
  let warnings : list string := [] in
  let warnings :=
    if negb (PyStr.truthy (education_level profile)) then warnings ++ [warn_level]
    else warnings in
  let warnings :=
    match interests profile with
    | [] => warnings ++ [warn_no_interests]
    | ins => if 10 <? length ins then warnings ++ [warn_many_interests] else warnings
    end in
  let warnings :=
    if negb (PyStr.truthy (career_goal profile)) then warnings ++ [warn_career]
    else warnings in
  {| errors := errors; warnings := warnings |}.

(** The list [summary_parts] as the four conditionals build it. *)
Definition summary_parts (profile : Profile) : list string :=
  let parts : list string := [] in
  let lvl := education_level profile in
  let parts :=
    if PyStr.truthy lvl then parts ++ ["Education Level: " +:+ PyStr.title lvl]
    else parts in
  let ins := interests profile in
  let parts :=
    match ins with
    | [] => parts
    | _ =>
        let interests_str := PyStr.join ", " (take 5 ins) in
        let interests_str :=
          if 5 <? length ins
          then interests_str +:+ " (and " +:+ pretty (length ins - 5) +:+ " more)"
          else interests_str in
        parts ++ ["Interests: " +:+ interests_str]
    end in
  let career := career_goal profile in
  let parts :=
    if PyStr.truthy career then parts ++ ["Career Goal: " +:+ PyStr.title career]
    else parts in
  let additional := additional_info profile in
  let parts :=
    if PyStr.truthy additional && (10 <? String.length additional)
    then parts ++ ["Additional Notes: " +:+ PyStr.take_chars 100 additional +:+ "..."]
    else parts in
  parts.

Definition create_profile_summary (profile : Profile) : string :=
  match summary_parts profile with
  | [] => "Profile information not provided"
  | parts => PyStr.join (String "010"%char EmptyString) parts
  end.

Definition get_sample_inputs : RawInput :=
  {| raw_education_level := "2nd year";
     raw_interests := Items ["computer science"; "business"; "data analysis"];
     raw_career_goal := "software engineer";
     raw_additional_info := "I am particularly interested in artificial intelligence and machine learning applications in business." |}.

Definition suggest_level : string :=
  "Adding your current education level (freshman, sophomore, etc.) will help us recommend appropriate courses.".
Definition suggest_interests : string :=
  "Sharing your academic interests will help us find courses you'll enjoy.".
Definition suggest_career : string :=
  "Mentioning your career goals can help us recommend courses that support your future plans.".

Definition suggest_missing_info (profile : Profile) : list string :=
  let suggestions : list string := [] in
  let suggestions :=
    if negb (PyStr.truthy (education_level profile)) then suggestions ++ [suggest_level]
    else suggestions in
  let suggestions :=
    match interests profile with
    | [] => suggestions ++ [suggest_interests]
    | _ => suggestions
    end in
  let suggestions :=
    if negb (PyStr.truthy (career_goal profile)) then suggestions ++ [suggest_career]
    else suggestions in
  suggestions.

End UserProfileProcessor.

(** The raw input a profile gives back: the profile's fields that the raw
    schema has, the derived [preferred_categories] being dropped. *)
Definition raw_of_profile (p : Profile) : RawInput :=
  {| raw_education_level := education_level p;
     raw_interests := Items (interests p);
     raw_career_goal := career_goal p;
     raw_additional_info := additional_info p |}.


(** ** The display of the education level, [llm_integration.py] *)

Module AICourseAdvisor.

Definition level_mappings : list (string * string) :=
  [ ("1st year", "1st Year (Freshman)");
    ("2nd year", "2nd Year (Sophomore)");
    ("3rd year", "3rd Year (Junior)");
    ("4th year", "4th Year (Senior)");
    ("graduate", "Graduate Student") ].

Definition _format_education_level (education_level : string) : string :=
  if negb (PyStr.truthy education_level) || bool_decide (education_level = "Not specified")
  then "Not specified"
  else
    let lower_level := PyStr.lower education_level in
    match dict_get lower_level level_mappings with
    | Some result => result
    | None => PyStr.title education_level
    end.

End AICourseAdvisor.

(** ** The request handlers, [app.py] *)

(** [s.split(sep)] for a separator of one character: the pieces between
    the separators, the empty ones too. *)
Fixpoint split_on (sep : ascii) (s : string) : list string :=
  match s with
  | EmptyString => [EmptyString]
  | String c s' =>
      if decide (c = sep) then EmptyString :: split_on sep s'
      else match split_on sep s' with
           | piece :: pieces => String c piece :: pieces
           | [] => [String c EmptyString]
           end
  end.

Module App.

Section Handlers.

(** [rag_system.courses] *)
Variable courses : list Course.

(** The courses in the response of [get_recommendations], for a payload
    that is not empty. [course_count] is the payload's integer of that
    name, [None] when the key is absent (the default is then 10). *)
Definition get_recommendations (raw_input : RawInput) (course_count : option Z)
    : list Course :=
  let user_profile := UserProfileProcessor.process_user_input raw_input in
  let recommended_courses := CourseRAG.get_recommended_courses courses user_profile in
  let course_count := default 10%Z course_count in
  if bool_decide (course_count ≠ 0%Z)
     && bool_decide (course_count < Z.of_nat (length recommended_courses))%Z
  then slice_to course_count recommended_courses
  else recommended_courses.

(** The courses in the response of [search_courses], from the four query
    parameters (each is the empty string when absent). *)
Definition search_courses (lvl cat semester keywords : string) : list Course :=
  if PyStr.truthy lvl then CourseRAG.search_courses_by_level courses lvl
  else if PyStr.truthy cat then CourseRAG.search_courses_by_category courses cat
  else if PyStr.truthy semester then CourseRAG.get_courses_by_semester courses semester
  else if PyStr.truthy keywords then
    let keyword_list :=
      PyStr.strip <$> filter (λ k, PyStr.truthy (PyStr.strip k) = true)
                             (split_on ","%char keywords) in
    CourseRAG.search_courses_by_keywords courses keyword_list 10
  else courses.

(** The categories in the response of [get_course_categories]: the set of
    the courses' categories as a list (in whatever order the set gives),
    without the empty one, sorted. *)
Definition get_course_categories : list string :=
  let categories :=
    elements (list_to_set ((λ course, default "" (category course)) <$> courses)
              : gset string) in
  let categories := filter (λ cat, PyStr.truthy cat = true) categories in
  merge_sort String.le categories.

End Handlers.

End App.

(** ** Specification-side definitions *)

(** The level-pass universe of a profile: the level-filtered catalog, or the
    whole catalog when [education_level] is empty. *)
Definition level_universe (courses : list Course) (p : Profile) : list Course :=
  if PyStr.truthy (education_level p)
  then CourseRAG.search_courses_by_level courses (education_level p)
  else courses.

(** The points one expanded keyword gives a course: nothing when the keyword
    (lowercased and trimmed) is not in the search text, else 3 for the title,
    else 2 for the description, else 1. *)
Definition keyword_points (course : Course) (keyword : string) : nat :=
  let k := PyStr.strip (PyStr.lower keyword) in
  if PyStr.contains k (CourseRAG.search_text course) then
    if PyStr.contains k (PyStr.lower (default "" (title course))) then 3
    else if PyStr.contains k (PyStr.lower (default "" (description course))) then 2
    else 1
  else 0.

(** The expansion of the keywords: each keyword lowercased, followed by its
    synonyms when it is a key of the interest table. *)
Definition expansion (keywords : list string) : list string :=
  keywords ≫= λ k, PyStr.lower k :: default [] (dict_get k CourseRAG.interest_mapping).

(** The total score of a course for a list of input keywords. *)
Definition keyword_score (keywords : list string) (course : Course) : nat :=
  sum_list (keyword_points course <$> expansion keywords).

(** The whole ranking of the scored search, before the slice. *)
Definition ranking (courses : list Course) (keywords : list string) : list Course :=
  (CourseRAG.sort_desc
     (foldl (CourseRAG.collect_step (CourseRAG.expand_keywords keywords)) [] courses)).*1.

(** Descending order of the scores, on scored pairs and on courses. *)
Definition score_ge (x y : Course * nat) : Prop := y.2 ≤ x.2.

(** A catalog of eleven music courses, [MUS1] to [MUS11]. *)
Definition music_course (n : nat) : Course :=
  {| course_id := "MUS" +:+ pretty n; title := Some "Music Theory";
     description := None; category := Some "Music"; level := Some "1st year";
     keywords := None; credits := Some 3%Z; prerequisites := None; semesters := None |}.

Definition music_catalog : list Course := music_course <$> seq 1 11.

(** The three courses of the scenario of the specification. *)
Definition scenario_catalog : list Course :=
  [ {| course_id := "CS101"; title := Some "Intro to Programming"; description := None;
       category := Some "Computer Science"; level := Some "1st year";
       keywords := Some ["programming"; "software"]; credits := None;
       prerequisites := None; semesters := None |};
    {| course_id := "BUS200"; title := Some "Business Basics"; description := None;
       category := Some "Business"; level := Some "2nd year";
       keywords := None; credits := None; prerequisites := None; semesters := None |};
    {| course_id := "ART150"; title := Some "Visual Arts Studio"; description := None;
       category := Some "Fine Arts"; level := Some "1st year";
       keywords := None; credits := None; prerequisites := None; semesters := None |} ].

(** The profile with every field empty. *)
Definition empty_profile : Profile :=
  {| education_level := ""; interests := []; career_goal := "";
     preferred_categories := []; additional_info := "" |}.

(** A line is shown by a text when it occurs in it. *)
Definition shows (line text : string) : Prop := PyStr.contains line text = true.

(** The interests part of the summary: the first five, and the count of the
    others when there are more. *)
Definition interests_shown (ins : list string) : string :=
  PyStr.join ", " (take 5 ins)
  +:+ (if 5 <? length ins then " (and " +:+ pretty (length ins - 5) +:+ " more)" else "").

(** A profile with its additional information removed. *)
Definition without_additional_info (p : Profile) : Profile :=
  {| education_level := education_level p; interests := interests p;
     career_goal := career_goal p; preferred_categories := preferred_categories p;
     additional_info := "" |}.

(** A profile with a short note as additional information. *)
Definition short_note_profile : Profile :=
  {| education_level := "2nd year"; interests := ["AI/ML"]; career_goal := "data scientist";
     preferred_categories := []; additional_info := "thanks" |}.

(** Every character of a string passes a test. *)
Fixpoint str_all (P : ascii → bool) (s : string) : bool :=
  match s with
  | EmptyString => true
  | String c s' => P c && str_all P s'
  end.

(** A character an interest of the text mode may have: no delimiter of the
    split, and no capital letter. *)
Definition plain_char (c : ascii) : bool :=
  negb (UserProfileProcessor.is_delim c) && negb (PyStr.is_upper c).

(** What the text mode does to one piece of the split: trim, lowercase,
    remove a conversational prefix, trim. *)
Definition clean_text (piece : string) : string :=
  PyStr.strip (UserProfileProcessor.sub_prefix UserProfileProcessor.interest_prefixes
                 (PyStr.lower (PyStr.strip piece))).


(** An interest makes a category when one keyword of the category's table
    occurs in it, character for character. *)
Definition makes_category (interest cat : string) : Prop :=
  ∃ kws k, (cat, kws) ∈ UserProfileProcessor.category_keywords
           ∧ k ∈ kws ∧ PyStr.contains k interest = true.

(** The profiles of the scenario: a first-year student, first with no
    interest or goal, then with the interest "programming". *)
Definition first_year_profile : Profile :=
  {| education_level := "1st year"; interests := []; career_goal := "";
     preferred_categories := []; additional_info := "" |}.

Definition programming_profile : Profile :=
  {| education_level := "1st year"; interests := ["programming"]; career_goal := "";
     preferred_categories := []; additional_info := "" |}.

(** What the two loops of [get_recommended_courses] maintain: [seen_ids]
    is the set of the ids kept, no id is kept twice, and every course kept
    is in the level pass. *)
Definition merge_invariant (level_courses : list Course)
    (st : gset string * list Course) : Prop :=
  st.1 = list_to_set (course_id <$> st.2)
  ∧ NoDup (course_id <$> st.2)
  ∧ Forall (λ c, c ∈ level_courses) st.2.

(** A course paired with its score, as [scored_courses] holds it. *)
Definition scored (keywords : list string) (c : Course) : Course * nat :=
  (c, keyword_score keywords c).

(** Settles the membership of one fixed warning in a fixed list of them. *)
Ltac warning_membership :=
  match goal with
  | H : _ ∈ _ |- _ => exfalso; apply (bool_decide_pack _) in H; by vm_compute in H
  | |- _ ∈ _ => apply (bool_decide_unpack _); by vm_compute
  end.

(** The five canonical education levels, and the names they are shown by. *)
Definition canonical_levels : list string :=
  ["1st year"; "2nd year"; "3rd year"; "4th year"; "graduate"].

Definition display_levels : list string :=
  [ "1st Year (Freshman)"; "2nd Year (Sophomore)"; "3rd Year (Junior)";
    "4th Year (Senior)"; "Graduate Student" ].

(** The prefixes of [prefixes_to_remove] that end in "a". *)
Definition a_prefixes : list string :=
  [ "i want to be a"; "i want to become a"; "i would like to be a"; "becoming a";
    "my goal is to be a"; "i plan to be a" ].

(** The first course of the scenario. *)
Definition cs101 : Course :=
  {| course_id := "CS101"; title := Some "Intro to Programming"; description := None;
     category := Some "Computer Science"; level := Some "1st year";
     keywords := Some ["programming"; "software"]; credits := None;
     prerequisites := None; semesters := None |}.

(** The first character of a string, if any, is not white space. *)
Definition head_not_space (s : string) : Prop :=
  match s with
  | EmptyString => True
  | String c _ => PyStr.is_space c = false
  end.

(** The career, interest and category passes of a profile, joined in the
    order in which [get_recommended_courses] merges them. *)
Definition merged_passes (courses : list Course) (p : Profile) : list Course :=
  (if PyStr.truthy (career_goal p)
   then CourseRAG.search_courses_by_career_goal courses (career_goal p) else [])
  ++ match interests p with
     | [] => level_universe courses p
     | ins => foldl (λ acc interest,
                       acc ++ CourseRAG.search_courses_by_keywords courses [interest] 5)
                    [] ins
     end
  ++ foldl (λ acc cat, acc ++ CourseRAG.search_courses_by_category courses cat) []
           (preferred_categories p).

(** The courses of a list whose id is not seen yet, each id once: the first
    course of every id. *)
Fixpoint keep_first_ids (seen : gset string) (l : list Course) : list Course :=
  match l with
  | [] => []
  | c :: l' =>
      if decide (course_id c ∈ seen) then keep_first_ids seen l'
      else c :: keep_first_ids ({[course_id c]} ∪ seen) l'
  end.

(** The combined search text of a course in the words of the
    specification: the title, the description, the category and the
    keywords, joined by blanks, in lowercase. *)
Definition combined_lowercase_text (course : Course) : string :=
  PyStr.lower
    (PyStr.join " " [ default "" (title course);
                      default "" (description course);
                      default "" (category course);
                      PyStr.join " " (default [] (keywords course)) ]).

(** The points of one expanded keyword, trimmed, against that text: 3 when
    it is in the title, else 2 when in the description, else 1, and none
    when it is not in the combined text. *)
Definition match_points (course : Course) (keyword : string) : nat :=
  let k := PyStr.strip (PyStr.lower keyword) in
  if PyStr.contains k (combined_lowercase_text course) then
    if PyStr.contains k (PyStr.lower (default "" (title course))) then 3
    else if PyStr.contains k (PyStr.lower (default "" (description course))) then 2
    else 1
  else 0.

Definition total_points (keywords : list string) (course : Course) : nat :=
  sum_list (match_points course <$> expansion keywords).

(** The career pass of a profile, as [get_recommended_courses] computes it. *)
Definition career_pass (courses : list Course) (p : Profile) : list Course :=
  if PyStr.truthy (career_goal p)
  then CourseRAG.search_courses_by_career_goal courses (career_goal p) else [].

(** A course whose title has "art" inside a word. *)
Definition smart_course : Course :=
  {| course_id := "URB210"; title := Some "Smart Cities"; description := None;
     category := Some "Urban Studies"; level := Some "2nd year"; keywords := None;
     credits := None; prerequisites := None; semesters := None |}.

(** Two courses of one id. *)
Definition twin_first : Course :=
  {| course_id := "DUP100"; title := Some "First Twin"; description := None;
     category := None; level := Some "1st year"; keywords := None;
     credits := None; prerequisites := None; semesters := None |}.

Definition twin_second : Course :=
  {| course_id := "DUP100"; title := Some "Second Twin"; description := None;
     category := None; level := Some "1st year"; keywords := None;
     credits := None; prerequisites := None; semesters := None |}.

Definition twin_catalog : list Course := [twin_first; twin_second].

(** * Properties of the matching engine *)

Section MergeInvariant.

Import CourseRAG.

Variable level_courses : list Course.

Lemma merge_inv_init : merge_invariant level_courses (∅, []).
Proof. split_and!; simpl; [done | constructor | constructor]. Qed.

Lemma merge_inv_add seen uniq c :
  merge_invariant level_courses (seen, uniq) →
  course_id c ∉ seen → c ∈ level_courses →
  merge_invariant level_courses ({[course_id c]} ∪ seen, uniq ++ [c]).
Proof.
  intros (Hseen & Hnd & Hin) Hnew Hc; simpl in *. subst seen.
  split_and!; simpl.
  - rewrite fmap_app, list_to_set_app_L. simpl.
    by rewrite (right_id_L ∅ (∪)), (comm_L (∪)).
  - rewrite fmap_app. apply NoDup_app. split_and!; [done | | apply NoDup_singleton].
    intros i Hi Hi'. apply list_elem_of_singleton in Hi'. subst i.
    apply Hnew. by apply elem_of_list_to_set.
  - apply Forall_app. split; [done | by constructor].
Qed.

Lemma merge_step_inv st c :
  merge_invariant level_courses st →
  merge_invariant level_courses (merge_step level_courses st c).
Proof.
  intros Hst. unfold merge_step. destruct st as [seen uniq]; simpl.
  destruct (bool_decide (course_id c ∉ seen)) eqn:E1; simpl; [| done].
  destruct (bool_decide (c ∈ level_courses)) eqn:E2; simpl; [| done].
  apply bool_decide_eq_true in E1, E2. by apply merge_inv_add.
Qed.

Lemma backfill_step_inv st c :
  merge_invariant level_courses st → c ∈ level_courses →
  merge_invariant level_courses (backfill_step st c).
Proof.
  intros Hst Hc. unfold backfill_step. destruct st as [seen uniq]; simpl.
  destruct (bool_decide (course_id c ∉ seen)) eqn:E1; simpl; [| done].
  destruct (bool_decide (length uniq < 12)); simpl; [| done].
  apply bool_decide_eq_true in E1. by apply merge_inv_add.
Qed.

Lemma merge_loop_inv l st :
  merge_invariant level_courses st →
  merge_invariant level_courses (foldl (merge_step level_courses) st l).
Proof.
  revert st. induction l as [| c l IH]; intros st Hst; simpl; [done |].
  apply IH. by apply merge_step_inv.
Qed.

Lemma backfill_loop_inv l st :
  Forall (λ c, c ∈ level_courses) l →
  merge_invariant level_courses st →
  merge_invariant level_courses (foldl backfill_step st l).
Proof.
  revert st. induction l as [| c l IH]; intros st Hl Hst; simpl; [done |].
  inversion_clear Hl. apply IH; [done |]. by apply backfill_step_inv.
Qed.

(** The state after both loops, whatever list was merged. *)
Lemma merged_inv all_courses :
  let st := foldl (merge_step level_courses) (∅, []) all_courses in
  merge_invariant level_courses
    (if bool_decide (length st.2 < 8) then foldl backfill_step st level_courses else st).
Proof.
  intros st.
  assert (merge_invariant level_courses st) as Hst by apply merge_loop_inv, merge_inv_init.
  destruct (bool_decide (length st.2 < 8)); [| done].
  apply backfill_loop_inv; [| done]. by apply Forall_forall.
Qed.

End MergeInvariant.

(** Every recommended course is in the level-pass universe. *)
Lemma recommended_subset_universe (courses : list Course) (p : Profile) (c : Course) :
  c ∈ CourseRAG.get_recommended_courses courses p → c ∈ level_universe courses p.
Proof.
  unfold CourseRAG.get_recommended_courses. fold (level_universe courses p).
  match goal with
  | |- context [foldl (CourseRAG.merge_step _) _ ?all] =>
      pose proof (merged_inv (level_universe courses p) all) as Hinv
  end.
  cbv zeta in Hinv. destruct Hinv as (_ & _ & Hin). intros Hc.
  rewrite Forall_forall in Hin. apply Hin.
  apply elem_of_take in Hc as (i & Hi & _). by eapply list_elem_of_lookup_2.
Qed.

Lemma level_universe_nil (p : Profile) : level_universe [] p = [].
Proof. unfold level_universe. by destruct (PyStr.truthy _). Qed.

Lemma level_universe_sublist (courses : list Course) (p : Profile) :
  level_universe courses p `sublist_of` courses.
Proof.
  unfold level_universe, CourseRAG.search_courses_by_level.
  destruct (PyStr.truthy _); [apply sublist_filter | done].
Qed.

Section MergeOfFreshCourses.

Import CourseRAG.

(** Merging courses of the level pass whose ids are new and distinct keeps
    all of them, in order. *)
Lemma merge_loop_fresh (level_courses l : list Course) seen uniq :
  Forall (λ c, c ∈ level_courses) l →
  NoDup (course_id <$> l) →
  (∀ c, c ∈ l → course_id c ∉ seen) →
  foldl (merge_step level_courses) (seen, uniq) l
  = (list_to_set (course_id <$> l) ∪ seen, uniq ++ l).
Proof.
  revert seen uniq. induction l as [| c l IH]; intros seen uniq Hin Hnd Hnew; simpl.
  - by rewrite (left_id_L ∅ (∪)), app_nil_r.
  - inversion_clear Hin as [| ? ? Hc Hl].
    apply NoDup_cons in Hnd as [Hc' Hnd].
    unfold merge_step at 2; simpl.
    rewrite !bool_decide_eq_true_2 by (done || apply Hnew; left). simpl.
    rewrite IH; [| done | done |].
    + f_equal; [| by rewrite <- app_assoc].
      by rewrite (assoc_L (∪)), (comm_L (∪) _ {[course_id c]}).
    + intros d Hd. apply not_elem_of_union. split; [| apply Hnew; by right].
      intros Heq%elem_of_singleton. apply Hc'. rewrite <- Heq.
      by apply list_elem_of_fmap_2.
Qed.

(** The backfill adds nothing when every id of the level pass is seen. *)
Lemma backfill_loop_seen (l : list Course) st :
  (∀ c, c ∈ l → course_id c ∈ st.1) → foldl backfill_step st l = st.
Proof.
  induction l as [| c l IH]; intros Hseen; simpl; [done |].
  unfold backfill_step at 2.
  rewrite bool_decide_eq_false_2; simpl.
  - apply IH. intros d Hd. apply Hseen. by right.
  - intros Hn. apply Hn, Hseen. by left.
Qed.

End MergeOfFreshCourses.

(** C1. For every catalog and every profile, [get_recommended_courses]
    returns a list of at most 12 courses whose ids are pairwise distinct,
    and every course of it is in the level-pass universe: the level-filtered
    catalog, or the whole catalog when [education_level] is empty. *)
Theorem recommended_bounded_distinct_in_universe (courses : list Course) (p : Profile) :
  let result := CourseRAG.get_recommended_courses courses p in
  length result ≤ 12
  ∧ NoDup (course_id <$> result)
  ∧ ∀ c, c ∈ result → c ∈ level_universe courses p.
Proof.
  intros result. subst result. unfold CourseRAG.get_recommended_courses.
  fold (level_universe courses p).
  match goal with
  | |- context [foldl (CourseRAG.merge_step _) _ ?all] =>
      pose proof (merged_inv (level_universe courses p) all) as Hinv
  end.
  cbv zeta in Hinv. destruct Hinv as (_ & Hnd & Hin).
  split_and!.
  - rewrite length_take. lia.
  - rewrite fmap_take. exact (sublist_NoDup _ _ Hnd (sublist_take _ _)).
  - intros c Hc. rewrite Forall_forall in Hin. apply Hin.
    apply elem_of_take in Hc as (i & Hi & _). by eapply list_elem_of_lookup_2.
Qed.

(** ** The scored keyword search *)

Section StableSort.

Import CourseRAG.

Lemma insert_desc_perm x l : insert_desc x l ≡ₚ x :: l.
Proof.
  induction l as [| y l IH]; simpl; [done |].
  destruct (x.2 <? y.2); [| done].
  rewrite IH. apply Permutation_swap.
Qed.

Lemma sort_desc_perm l : sort_desc l ≡ₚ l.
Proof.
  induction l as [| x l IH]; simpl; [done |].
  rewrite insert_desc_perm. by f_equiv.
Qed.

Lemma insert_desc_sorted x l :
  StronglySorted score_ge l → StronglySorted score_ge (insert_desc x l).
Proof.
  induction 1 as [| y l Hl IH Hy]; simpl.
  - repeat constructor.
  - destruct (x.2 <? y.2) eqn:E.
    + apply Nat.ltb_lt in E. constructor; [done |].
      rewrite insert_desc_perm. constructor; [unfold score_ge; lia | done].
    + apply Nat.ltb_ge in E. constructor; [by constructor |].
      constructor; [done |].
      eapply Forall_impl; [exact Hy |]. unfold score_ge. intros z Hz. simpl in *. lia.
Qed.

Lemma sort_desc_sorted l : StronglySorted score_ge (sort_desc l).
Proof.
  induction l as [| x l IH]; simpl; [constructor |]. by apply insert_desc_sorted.
Qed.

(** Stability: an inserted pair only passes pairs of a strictly greater
    score, so the pairs of any one score keep their order. *)
Lemma insert_desc_stable (s : nat) x l :
  filter (λ y, y.2 = s) (insert_desc x l) = filter (λ y, y.2 = s) (x :: l).
Proof.
  induction l as [| y l IH]; simpl; [done |].
  destruct (x.2 <? y.2) eqn:E; [| done].
  apply Nat.ltb_lt in E.
  rewrite (filter_cons _ y), IH, !filter_cons.
  repeat case_decide; done || lia.
Qed.

Lemma sort_desc_stable (s : nat) l :
  filter (λ y, y.2 = s) (sort_desc l) = filter (λ y, y.2 = s) l.
Proof.
  induction l as [| x l IH]; simpl; [done |].
  by rewrite insert_desc_stable, !filter_cons, IH.
Qed.

End StableSort.

Section ScoredSearch.

Import CourseRAG.

Lemma expand_loop acc keywords :
  foldl expand_step acc keywords = acc ++ expansion keywords.
Proof.
  revert acc. induction keywords as [| k ks IH]; intros acc; simpl.
  - by rewrite app_nil_r.
  - rewrite IH. unfold expand_step, expansion. simpl.
    destruct (dict_get k interest_mapping); simpl;
      by rewrite <- ?app_assoc.
Qed.

Lemma expand_keywords_expansion keywords : expand_keywords keywords = expansion keywords.
Proof. apply expand_loop. Qed.

Lemma score_step_points course score keyword :
  score_step course score keyword = score + keyword_points course keyword.
Proof.
  unfold score_step, keyword_points. cbv zeta. repeat case_match; lia.
Qed.

Lemma score_loop course score ks :
  foldl (score_step course) score ks = score + sum_list (keyword_points course <$> ks).
Proof.
  revert score. induction ks as [| k ks IH]; intros score; [simpl; lia |].
  change (foldl (score_step course) score (k :: ks))
    with (foldl (score_step course) (score_step course score k) ks).
  rewrite IH, score_step_points, fmap_cons.
  change (sum_list (keyword_points course k :: (keyword_points course <$> ks)))
    with (keyword_points course k + sum_list (keyword_points course <$> ks)).
  lia.
Qed.

Lemma course_score_keyword_score keywords course :
  course_score (expand_keywords keywords) course = keyword_score keywords course.
Proof. unfold course_score. by rewrite score_loop, expand_keywords_expansion. Qed.

Variable courses : list Course.
Variable keywords : list string.

Lemma collect_loop acc l :
  foldl (collect_step (expand_keywords keywords)) acc l
  = acc ++ (scored keywords <$> filter (λ c, 0 < keyword_score keywords c) l).
Proof.
  revert acc. induction l as [| c l IH]; intros acc; simpl.
  - by rewrite app_nil_r.
  - rewrite IH. unfold collect_step. rewrite course_score_keyword_score.
    rewrite filter_cons.
    destruct (0 <? keyword_score keywords c) eqn:E.
    + apply Nat.ltb_lt in E. rewrite decide_True by done.
      by rewrite <- app_assoc.
    + apply Nat.ltb_ge in E. rewrite decide_False by lia. done.
Qed.

(** Every pair of the sorted list carries the score of its course. *)
Lemma sorted_pairs_scored :
  Forall (λ x, x = scored keywords x.1)
         (sort_desc (foldl (collect_step (expand_keywords keywords)) [] courses)).
Proof.
  rewrite sort_desc_perm, collect_loop. simpl.
  apply Forall_fmap, Forall_forall. done.
Qed.

Lemma scored_pairs_fst (l : list (Course * nat)) :
  Forall (λ x, x = scored keywords x.1) l → l = scored keywords <$> l.*1.
Proof. induction 1 as [| x l Hx _ IH]; [done |]. rewrite !fmap_cons. by f_equal. Qed.

Lemma scored_sorted (l : list Course) :
  StronglySorted score_ge (scored keywords <$> l) →
  StronglySorted (λ c1 c2, keyword_score keywords c2 ≤ keyword_score keywords c1) l.
Proof.
  induction l as [| c l IH]; simpl; intros Hs; [constructor |].
  apply StronglySorted_inv in Hs as [Hl Hc].
  constructor; [by apply IH |].
  rewrite Forall_fmap in Hc. exact Hc.
Qed.

Lemma scored_filter (s : nat) (l : list Course) :
  filter (λ y, y.2 = s) (scored keywords <$> l)
  = scored keywords <$> filter (λ c, keyword_score keywords c = s) l.
Proof.
  induction l as [| c l IH]; [done |].
  rewrite fmap_cons, !filter_cons, IH.
  change ((scored keywords c).2) with (keyword_score keywords c). by case_decide.
Qed.

Lemma scored_inj (l1 l2 : list Course) :
  scored keywords <$> l1 = scored keywords <$> l2 → l1 = l2.
Proof.
  intros H. apply (f_equal (fmap fst)) in H.
  rewrite <- !list_fmap_compose in H. by rewrite !list_fmap_id in H.
Qed.

Lemma search_is_slice_of_ranking (max_results : Z) :
  search_courses_by_keywords courses keywords max_results
  = slice_to max_results (ranking courses keywords).
Proof.
  unfold search_courses_by_keywords, ranking, slice_to.
  destruct (0 <=? max_results)%Z; by rewrite fmap_take, ?length_fmap.
Qed.

Lemma ranking_perm :
  ranking courses keywords ≡ₚ filter (λ c, 0 < keyword_score keywords c) courses.
Proof.
  unfold ranking. rewrite sort_desc_perm, collect_loop. simpl.
  rewrite <- list_fmap_compose. by rewrite list_fmap_id.
Qed.

Lemma ranking_sorted :
  StronglySorted (λ c1 c2, keyword_score keywords c2 ≤ keyword_score keywords c1)
                 (ranking courses keywords).
Proof.
  apply scored_sorted. unfold ranking.
  rewrite <- scored_pairs_fst by apply sorted_pairs_scored. apply sort_desc_sorted.
Qed.

Lemma ranking_stable (s : nat) :
  0 < s →
  filter (λ c, keyword_score keywords c = s) (ranking courses keywords)
  = filter (λ c, keyword_score keywords c = s) courses.
Proof.
  intros Hs. apply scored_inj. rewrite <- !scored_filter. unfold ranking.
  rewrite <- scored_pairs_fst by apply sorted_pairs_scored.
  rewrite sort_desc_stable, collect_loop. simpl.
  rewrite !scored_filter. f_equal.
  rewrite list_filter_filter. apply list_filter_iff. intros c. lia.
Qed.

End ScoredSearch.

(** ** The career-goal pass *)

(** C3, as the code has it. The career-goal pass calls the scored keyword
    search without [max_results], so with the default cap of 10: its result
    has [min 10 n] courses when [n] courses have a positive score, all of
    them with a positive score; every course of a positive score is in the
    result when at most 10 courses have one. *)
Theorem career_pass_capped_at_ten (courses : list Course) (goal : string) :
  let kws := CourseRAG.career_goal_keywords goal in
  let positive := filter (λ c, 0 < keyword_score kws c) courses in
  let result := CourseRAG.search_courses_by_career_goal courses goal in
  result = CourseRAG.search_courses_by_keywords courses kws 10
  ∧ length result = min 10 (length positive)
  ∧ (∀ c, c ∈ result → c ∈ courses ∧ 0 < keyword_score kws c)
  ∧ (length positive ≤ 10 →
       ∀ c, c ∈ courses → 0 < keyword_score kws c → c ∈ result).
Proof.
  intros kws positive result.
  assert (result = take 10 (ranking courses kws)) as Hres.
  { subst result. unfold CourseRAG.search_courses_by_career_goal.
    by rewrite search_is_slice_of_ranking. }
  pose proof (ranking_perm courses kws) as Hperm. fold positive in Hperm.
  split_and!.
  - done.
  - by rewrite Hres, length_take, Hperm.
  - intros c Hc. rewrite Hres in Hc.
    apply elem_of_take in Hc as (i & Hi & _). apply list_elem_of_lookup_2 in Hi.
    rewrite Hperm in Hi. by apply list_elem_of_filter in Hi as [? ?].
  - intros Hlen c Hc Hpos. rewrite Hres, take_ge by (by rewrite Hperm).
    rewrite Hperm. by apply list_elem_of_filter.
Qed.

Lemma career_pass_witness :
  length (filter (λ c, 0 < keyword_score (CourseRAG.career_goal_keywords "programmer") c)
                 scenario_catalog) ≤ 10
  ∧ ∀ c, c ∈ scenario_catalog →
         0 < keyword_score (CourseRAG.career_goal_keywords "programmer") c →
         c ∈ CourseRAG.search_courses_by_career_goal scenario_catalog "programmer".
Proof.
  assert (length (filter (λ c, 0 < keyword_score
                                     (CourseRAG.career_goal_keywords "programmer") c)
                         scenario_catalog) ≤ 10) as Hlen.
  { etrans; [apply length_filter |]. simpl. lia. }
  split; [exact Hlen |].
  exact (proj2 (proj2 (proj2 (career_pass_capped_at_ten scenario_catalog "programmer"))) Hlen).
Defined.

(** C3, as stated, fails: eleven courses score on the goal "musician", the
    pass returns ten of them, and [MUS11] is left out. *)
Lemma career_pass_drops_eleventh :
  ("musician" ≠ "")
  ∧ music_course 11 ∈ music_catalog
  ∧ 0 < keyword_score (CourseRAG.career_goal_keywords "musician") (music_course 11)
  ∧ (music_course 11 ∉ CourseRAG.search_courses_by_career_goal music_catalog "musician")
  ∧ length (CourseRAG.search_courses_by_career_goal music_catalog "musician") = 10
  ∧ (length (filter (λ c, 0 < keyword_score (CourseRAG.career_goal_keywords "musician") c)
                    music_catalog) = 11).
Proof.
  split_and!.
  - done.
  - apply (bool_decide_unpack _). by vm_compute.
  - apply Nat.ltb_lt. by vm_compute.
  - intros Hin. apply (bool_decide_pack _) in Hin. by vm_compute in Hin.
  - by vm_compute.
  - by vm_compute.
Qed.

(** * Properties of the validator *)

Section Validator.

Import UserProfileProcessor.

Lemma truthy_empty (s : string) : PyStr.truthy s = false ↔ s = "".
Proof. destruct s; simpl; split; done. Qed.

(** C6. [validate_profile] never reports an error, and it warns exactly
    about an empty education level, an empty list of interests, a list of
    more than 10 interests, and an empty career goal; it has no other
    warning. *)
Theorem validate_profile_only_warns (p : Profile) :
  errors (validate_profile p) = []
  ∧ (warn_level ∈ warnings (validate_profile p) ↔ education_level p = "")
  ∧ (warn_no_interests ∈ warnings (validate_profile p) ↔ interests p = [])
  ∧ (warn_many_interests ∈ warnings (validate_profile p) ↔ 10 < length (interests p))
  ∧ (warn_career ∈ warnings (validate_profile p) ↔ career_goal p = "")
  ∧ ∀ w, w ∈ warnings (validate_profile p) →
         w ∈ [warn_level; warn_no_interests; warn_many_interests; warn_career].
Proof.
  destruct p as [lvl ins goal cats info]. unfold validate_profile. cbn [education_level
    interests career_goal errors warnings].
  split; [done |].
  destruct lvl as [| a lvl], goal as [| b goal], ins as [| i ins];
    try destruct (Nat.ltb_spec 10 (length (i :: ins))) as [E | E];
    cbn [PyStr.truthy negb app].
  all: split_and!.
  all: try (apply Forall_forall; repeat (apply Forall_cons; split; [warning_membership |]);
            by apply Forall_nil).
  all: split; intros H.
  all: try done. all: try (simpl in *; lia).
  all: warning_membership.
Qed.

End Validator.

Import UserProfileProcessor.

(** C7. On an empty catalog every profile gets the empty list of
    recommendations; for the profile with all fields empty the validation
    has no error and only warnings, and the summary is the fallback text. *)
Theorem empty_catalog_and_empty_profile :
  (∀ p, CourseRAG.get_recommended_courses [] p = [])
  ∧ errors (validate_profile empty_profile) = []
  ∧ warnings (validate_profile empty_profile) = [warn_level; warn_no_interests; warn_career]
  ∧ create_profile_summary empty_profile = "Profile information not provided".
Proof.
  split_and!; try done.
  intros p. destruct (CourseRAG.get_recommended_courses [] p) as [| c l] eqn:E; [done |].
  assert (c ∈ level_universe [] p) as Hc.
  { apply recommended_subset_universe. rewrite E. by left. }
  rewrite level_universe_nil in Hc. by apply not_elem_of_nil in Hc.
Qed.

(** C8. Normalising the sample input, and then normalising the profile so
    obtained again (as raw input, without the derived categories), gives
    the same profile. *)
Theorem sample_normalisation_idempotent :
  process_user_input (raw_of_profile (process_user_input get_sample_inputs))
  = process_user_input get_sample_inputs.
Proof. by vm_compute. Qed.

(** * Facts about strings *)

Section StringFacts.

Import PyStr.

Lemma append_cons (c : ascii) (s t : string) : String c s +:+ t = String c (s +:+ t).
Proof. reflexivity. Qed.

Lemma append_nil_r (s : string) : s +:+ "" = s.
Proof. induction s as [| c s IH]; [done |]. by rewrite append_cons, IH. Qed.

Lemma append_assoc (a b c : string) : (a +:+ b) +:+ c = a +:+ b +:+ c.
Proof. induction a as [| x a IH]; [done |]. by rewrite !append_cons, IH. Qed.

Lemma startswith_app (k t : string) : startswith k (k +:+ t) = true.
Proof.
  induction k as [| c k IH]; [done |].
  rewrite append_cons. simpl. by rewrite decide_True.
Qed.

Lemma contains_startswith (k s : string) : startswith k s = true → contains k s = true.
Proof. intros H. destruct s; simpl in *; by rewrite H. Qed.

Lemma contains_app_r (k a s : string) : contains k s = true → contains k (a +:+ s) = true.
Proof.
  intros H. induction a as [| c a IH]; [done |].
  rewrite append_cons. simpl. rewrite IH. apply orb_true_r.
Qed.

(** A line occurs in whatever text is put around it. *)
Lemma contains_middle (k a b : string) : contains k (a +:+ k +:+ b) = true.
Proof. apply contains_app_r, contains_startswith, startswith_app. Qed.

Lemma contains_join (sep p : string) (parts : list string) :
  p ∈ parts → contains p (join sep parts) = true.
Proof.
  induction parts as [| q parts IH]; intros Hin; [by apply not_elem_of_nil in Hin |].
  apply elem_of_cons in Hin as [-> | Hin].
  - destruct parts as [| r parts]; simpl join.
    + rewrite <- (append_nil_r q) at 2. apply (contains_middle q "" "").
    + apply (contains_middle q "").
  - destruct parts as [| r parts]; [by apply not_elem_of_nil in Hin |].
    change (join sep (q :: r :: parts)) with (q +:+ sep +:+ join sep (r :: parts)).
    rewrite <- append_assoc. apply contains_app_r. by apply IH.
Qed.

End StringFacts.

(** * Properties of the summariser *)

Section Summary.

Lemma summary_shows_part (p : Profile) (line : string) :
  line ∈ summary_parts p → shows line (create_profile_summary p).
Proof.
  unfold create_profile_summary, shows. intros Hin.
  destruct (summary_parts p) as [| q parts] eqn:E; [by apply not_elem_of_nil in Hin |].
  by apply contains_join.
Qed.

Lemma truthy_nonempty (s : string) : s ≠ "" → PyStr.truthy s = true.
Proof. by destruct s. Qed.

Lemma ten_lt_truthy (s : string) :
  PyStr.truthy s && (10 <? String.length s) = (10 <? String.length s).
Proof. by destruct s. Qed.

(** The parts of the summary, one optional line per field. *)
Lemma summary_parts_lines (p : Profile) :
  summary_parts p
  = (if PyStr.truthy (education_level p)
     then ["Education Level: " +:+ PyStr.title (education_level p)] else [])
    ++ (match interests p with
        | [] => []
        | _ => ["Interests: " +:+ interests_shown (interests p)]
        end)
    ++ (if PyStr.truthy (career_goal p)
        then ["Career Goal: " +:+ PyStr.title (career_goal p)] else [])
    ++ (if 10 <? String.length (additional_info p)
        then ["Additional Notes: " +:+ PyStr.take_chars 100 (additional_info p) +:+ "..."]
        else []).
Proof.
  unfold summary_parts, interests_shown. cbv zeta. rewrite ten_lt_truthy.
  destruct (PyStr.truthy (education_level p)), (interests p) as [| i ins],
    (PyStr.truthy (career_goal p)), (10 <? String.length (additional_info p));
    try destruct (5 <? length (i :: ins));
    rewrite ?append_nil_r, ?app_nil_l, ?app_nil_r, <- ?app_assoc; reflexivity.
Qed.

(** C4, as the code has it. The summary shows the title-cased education
    level and career goal when they are not empty, the first 5 interests
    with the suffix " (and N more)" when there are more than 5, and the
    first 100 characters of the additional information followed by "..."
    when that information has more than 10 characters; additional
    information of at most 10 characters changes nothing in the summary. *)
Theorem summary_shows_fields (p : Profile) :
  (education_level p ≠ "" →
     shows ("Education Level: " +:+ PyStr.title (education_level p))
           (create_profile_summary p))
  ∧ (interests p ≠ [] →
       shows ("Interests: " +:+ interests_shown (interests p)) (create_profile_summary p))
  ∧ (career_goal p ≠ "" →
       shows ("Career Goal: " +:+ PyStr.title (career_goal p)) (create_profile_summary p))
  ∧ (10 < String.length (additional_info p) →
       shows ("Additional Notes: " +:+ PyStr.take_chars 100 (additional_info p) +:+ "...")
             (create_profile_summary p))
  ∧ (String.length (additional_info p) ≤ 10 →
       create_profile_summary p = create_profile_summary (without_additional_info p)).
Proof.
  split_and!; intros H.
  - apply summary_shows_part. rewrite summary_parts_lines, (truthy_nonempty _ H).
    apply elem_of_app. left. by apply list_elem_of_singleton.
  - apply summary_shows_part. rewrite summary_parts_lines.
    apply elem_of_app. right. apply elem_of_app. left.
    destruct (interests p); [done | by apply list_elem_of_singleton].
  - apply summary_shows_part. rewrite summary_parts_lines, (truthy_nonempty _ H).
    do 2 (apply elem_of_app; right). apply elem_of_app. left.
    by apply list_elem_of_singleton.
  - apply summary_shows_part.
    rewrite summary_parts_lines, (proj2 (Nat.ltb_lt _ _) H).
    do 3 (apply elem_of_app; right). by apply list_elem_of_singleton.
  - unfold create_profile_summary. rewrite !summary_parts_lines.
    by rewrite (proj2 (Nat.ltb_ge _ _) H).
Qed.

Lemma summary_witness :
  (education_level short_note_profile ≠ ""
   ∧ shows "Education Level: 2Nd Year" (create_profile_summary short_note_profile))
  ∧ (String.length (additional_info short_note_profile) ≤ 10
     ∧ create_profile_summary short_note_profile
       = create_profile_summary (without_additional_info short_note_profile)).
Proof.
  split; split.
  - discriminate.
  - apply (proj1 (summary_shows_fields short_note_profile)). discriminate.
  - simpl. lia.
  - apply (proj2 (proj2 (proj2 (proj2 (summary_shows_fields short_note_profile))))).
    simpl. lia.
Defined.

(** C4, as stated, fails: a profile whose additional information is not
    empty but short gets a summary without it. *)
Lemma summary_omits_short_note :
  additional_info short_note_profile ≠ ""
  ∧ ¬ shows (PyStr.take_chars 100 (additional_info short_note_profile) +:+ "...")
            (create_profile_summary short_note_profile).
Proof. split; [discriminate |]. unfold shows. vm_compute. discriminate. Qed.

End Summary.

(** * Properties of the normaliser *)

Section CharacterFacts.

Import PyStr.

Lemma lower_char_not_upper (c : ascii) : is_upper (lower_char c) = false.
Proof. destruct c as [[] [] [] [] [] [] [] []]; by vm_compute. Qed.

Lemma lower_char_fixed (c : ascii) : is_upper c = false → lower_char c = c.
Proof. unfold lower_char. by intros ->. Qed.

Lemma lower_char_delim (c : ascii) :
  UserProfileProcessor.is_delim (lower_char c) = UserProfileProcessor.is_delim c.
Proof. destruct c as [[] [] [] [] [] [] [] []]; by vm_compute. Qed.

Lemma str_all_impl (P Q : ascii → bool) (s : string) :
  (∀ c, P c = true → Q c = true) → str_all P s = true → str_all Q s = true.
Proof.
  intros HPQ. induction s as [| c s IH]; simpl; [done |].
  intros [Hc Hs]%andb_true_iff. by rewrite (HPQ _ Hc), IH.
Qed.

Lemma str_all_lower_fixed (s : string) :
  str_all (λ c, negb (is_upper c)) s = true → lower s = s.
Proof.
  induction s as [| c s IH]; simpl; [done |].
  intros [Hc Hs]%andb_true_iff. apply negb_true_iff in Hc.
  by rewrite lower_char_fixed, IH.
Qed.

Lemma str_all_lower (s : string) : str_all (λ c, negb (is_upper c)) (lower s) = true.
Proof.
  induction s as [| c s IH]; simpl; [done |].
  by rewrite lower_char_not_upper, IH.
Qed.

Lemma str_all_lstrip (P : ascii → bool) (s : string) :
  str_all P s = true → str_all P (lstrip s) = true.
Proof.
  induction s as [| c s IH]; simpl; [done |].
  intros [Hc Hs]%andb_true_iff. destruct (is_space c); [by apply IH |].
  simpl. by rewrite Hc, Hs.
Qed.

Lemma str_all_rstrip (P : ascii → bool) (s : string) :
  str_all P s = true → str_all P (rstrip s) = true.
Proof.
  induction s as [| c s IH]; simpl; [done |].
  intros [Hc Hs]%andb_true_iff. specialize (IH Hs).
  destruct (rstrip s) as [| d r]; [destruct (is_space c); simpl; by rewrite ?Hc |].
  change (str_all P (String c (String d r))) with (P c && str_all P (String d r)).
  by rewrite Hc, IH.
Qed.

Lemma str_all_strip (P : ascii → bool) (s : string) :
  str_all P s = true → str_all P (strip s) = true.
Proof. intros H. by apply str_all_rstrip, str_all_lstrip. Qed.

Lemma str_all_drop (P : ascii → bool) (n : nat) (s : string) :
  str_all P s = true → str_all P (drop_chars n s) = true.
Proof.
  revert s. induction n as [| n IH]; intros [| c s]; simpl; try done.
  intros [_ Hs]%andb_true_iff. by apply IH.
Qed.

(** Trimming takes white space off the two ends and nothing else. *)
Lemma lstrip_suffix (s : string) : ∃ a, s = a +:+ lstrip s.
Proof.
  induction s as [| c s [a IH]]; [by exists "" |]. simpl.
  destruct (is_space c); [| by exists ""].
  exists (String c a). by rewrite append_cons, <- IH.
Qed.

Lemma rstrip_prefix (s : string) : ∃ b, s = rstrip s +:+ b.
Proof.
  induction s as [| c s [b IH]]; [by exists "" |]. simpl.
  destruct (rstrip s) as [| d r].
  - destruct (is_space c).
    + exists (String c b). by rewrite IH at 1.
    + exists b. by rewrite IH at 1.
  - exists b. by rewrite IH at 1.
Qed.

Lemma strip_block (s : string) : ∃ a b, s = a +:+ strip s +:+ b.
Proof.
  destruct (lstrip_suffix s) as [a Ha]. destruct (rstrip_prefix (lstrip s)) as [b Hb].
  exists a, b. unfold strip. by rewrite <- Hb.
Qed.

End CharacterFacts.

Section Interests.

Import PyStr.

Lemma clean_loop_items (acc l : list string) : foldl (clean_step true) acc l = acc ++ l.
Proof.
  revert acc. induction l as [| x l IH]; intros acc; simpl; [by rewrite app_nil_r |].
  rewrite IH. unfold clean_step. by rewrite <- app_assoc.
Qed.

Lemma clean_loop_text (acc l : list string) :
  foldl (clean_step false) acc l
  = acc ++ filter (λ e, 1 < String.length e)
                  ((λ t, strip (sub_prefix interest_prefixes (lower t))) <$> l).
Proof.
  revert acc. induction l as [| x l IH]; intros acc; [by rewrite app_nil_r |].
  change (foldl (clean_step false) acc (x :: l))
    with (foldl (clean_step false) (clean_step false acc x) l).
  rewrite IH, fmap_cons, filter_cons. unfold clean_step. cbv zeta.
  destruct (Nat.ltb_spec 1 (String.length (strip (sub_prefix interest_prefixes (lower x)))))
    as [E | E].
  - rewrite decide_True by done. by rewrite <- app_assoc.
  - rewrite decide_False by lia. done.
Qed.

Lemma stripped_nonempty_filter (l : list string) :
  stripped_nonempty l = filter (λ e, e ≠ "") (strip <$> l).
Proof.
  unfold stripped_nonempty. induction l as [| x l IH]; [done |].
  rewrite fmap_cons, !filter_cons, <- IH.
  repeat case_decide; try done; destruct (strip x); simpl in *; congruence.
Qed.

(** A piece that is blank once trimmed is dropped by the length test too,
    so the first filter of the text mode changes nothing. *)
Lemma clean_text_pieces (pieces : list string) :
  filter (λ e, 1 < String.length e)
         ((λ t, strip (sub_prefix interest_prefixes (lower t))) <$> stripped_nonempty pieces)
  = filter (λ e, 1 < String.length e) (clean_text <$> pieces).
Proof.
  unfold stripped_nonempty. induction pieces as [| x l IH]; [done |].
  rewrite (fmap_cons clean_text), (filter_cons _ (clean_text x)), <- IH, filter_cons.
  destruct (decide (truthy (strip x) = true)) as [Ht | Ht].
  - by rewrite !fmap_cons, filter_cons.
  - assert (strip x = "") as E by (destruct (strip x); [done | by destruct Ht]).
    rewrite decide_False; [done |]. unfold clean_text. rewrite E. vm_compute. lia.
Qed.

Lemma re_split_pieces (Q : ascii → bool) (k : nat) (s : string) :
  str_all (λ c, is_delim c || Q c) s = true →
  Forall (λ t, str_all (λ c, negb (is_delim c) && Q c) t = true) (re_split k s).
Proof.
  revert k. induction s as [| c s IH]; intros k Hs.
  - by repeat constructor.
  - simpl in Hs. apply andb_true_iff in Hs as [Hc Hs].
    cbn [re_split]. destruct k as [| k]; [| by apply IH].
    destruct (is_delim c) eqn:Ed; [constructor; [done | by apply IH] |].
    destruct (and_at (String c s)); [constructor; [done | by apply IH] |].
    specialize (IH 0 Hs). destruct (re_split 0 s) as [| piece pieces].
    + repeat constructor. simpl in *. by rewrite Ed, Hc.
    + inversion_clear IH as [| ? ? Hp Hps]. constructor; [| done].
      simpl in *. by rewrite Ed, Hc, Hp.
Qed.

Lemma sub_prefix_chars (P : ascii → bool) (alts : list string) (s : string) :
  str_all P s = true → str_all P (sub_prefix alts s) = true.
Proof.
  intros Hs. induction alts as [| p alts IH]; simpl; [done |].
  destruct (_ && _); [| done]. by apply str_all_lstrip, str_all_drop.
Qed.

Lemma lower_plain (s : string) : str_all plain_char s = true → lower s = s.
Proof.
  intros H. apply str_all_lower_fixed. revert H. apply str_all_impl.
  unfold plain_char. by intros c [_ ?]%andb_true_iff.
Qed.

Lemma clean_text_plain (piece : string) :
  str_all plain_char piece = true → str_all plain_char (clean_text piece) = true.
Proof.
  intros H. unfold clean_text. apply str_all_strip, sub_prefix_chars.
  rewrite lower_plain; by apply str_all_strip.
Qed.

Lemma lowered_pieces_plain (s : string) :
  Forall (λ t, str_all plain_char t = true) (re_split 0 (lower s)).
Proof.
  apply (re_split_pieces (λ c, negb (is_upper c))).
  eapply str_all_impl; [| apply str_all_lower].
  intros c ->. apply orb_true_r.
Qed.

Lemma process_interests_items (l : list string) :
  _process_interests (Items l) = take 15 (filter (λ e, e ≠ "") (strip <$> l)).
Proof.
  unfold _process_interests. by rewrite clean_loop_items, stripped_nonempty_filter.
Qed.

Lemma process_interests_text (s : string) :
  _process_interests (Text s)
  = take 15 (filter (λ e, 1 < String.length e) (clean_text <$> re_split 0 (lower s))).
Proof.
  unfold _process_interests. by rewrite clean_loop_text, clean_text_pieces.
Qed.

Lemma elem_of_take_elem {A} (x : A) (n : nat) (l : list A) : x ∈ take n l → x ∈ l.
Proof. intros (i & Hi & _)%elem_of_take. by eapply list_elem_of_lookup_2. Qed.

(** C5. A list of interests is normalised entry by entry to the trimmed
    string, in its original case (blank entries being dropped); a single
    string is lowercased, split on comma, semicolon and " and ", each
    piece losing a conversational prefix, and the pieces of one character
    or none are dropped; in both modes only the first 15 entries stay. *)
Theorem process_interests_by_mode :
  (∀ l, _process_interests (Items l) = take 15 (filter (λ e, e ≠ "") (strip <$> l)))
  ∧ (∀ l e, e ∈ _process_interests (Items l) →
            ∃ x a b, x ∈ l ∧ e = strip x ∧ x = a +:+ e +:+ b)
  ∧ (∀ s, _process_interests (Text s)
          = take 15 (filter (λ e, 1 < String.length e)
                            (clean_text <$> re_split 0 (lower s))))
  ∧ (∀ s e, e ∈ _process_interests (Text s) →
            lower e = e ∧ 1 < String.length e ∧ str_all (λ c, negb (is_delim c)) e = true)
  ∧ (∀ inp, length (_process_interests inp) ≤ 15)
  ∧ _process_interests (Items ["AI/ML"; " Web Dev "]) = ["AI/ML"; "Web Dev"]
  ∧ _process_interests (Text "AI/ML, I like Web Dev and x; Music")
    = ["ai/ml"; "web dev"; "music"].
Proof.
  split_and!.
  - apply process_interests_items.
  - intros l e He. rewrite process_interests_items in He.
    apply elem_of_take_elem, list_elem_of_filter in He as [_ He].
    apply list_elem_of_fmap in He as (x & -> & Hx).
    destruct (strip_block x) as (a & b & Hab). by exists x, a, b.
  - apply process_interests_text.
  - intros s e He. rewrite process_interests_text in He.
    apply elem_of_take_elem, list_elem_of_filter in He as [Hlen He].
    apply list_elem_of_fmap in He as (piece & -> & Hp).
    pose proof (lowered_pieces_plain s) as Hall. rewrite Forall_forall in Hall.
    pose proof (clean_text_plain _ (Hall _ Hp)) as Hplain.
    split_and!; [by apply lower_plain | done |].
    revert Hplain. apply str_all_impl. unfold plain_char.
    by intros c [? _]%andb_true_iff.
  - intros [s | l |]; [rewrite process_interests_text | rewrite process_interests_items
                      | simpl; lia]; rewrite length_take; lia.
  - by vm_compute.
  - by vm_compute.
Qed.

End Interests.

Section Categories.

Lemma category_step_elem (interest cat : string) (categories : list string)
    (entry : string * list string) :
  cat ∈ category_step interest categories entry
  ↔ cat ∈ categories
    ∨ (cat = entry.1 ∧ ∃ k, k ∈ entry.2 ∧ PyStr.contains k interest = true).
Proof.
  unfold category_step.
  destruct (existsb _ _) eqn:E.
  - apply existsb_exists in E as (k & Hk & Hc). apply list_elem_of_In in Hk.
    case_bool_decide as Hnew.
    + rewrite elem_of_app, list_elem_of_singleton. split.
      * intros [? | ->]; [by left | right]. split; [done | by exists k].
      * intros [? | [-> _]]; [by left | by right].
    + split; [by left |]. by intros [? | [-> _]].
  - split; [by left |]. intros [? | (_ & k & Hk & Hc)]; [done |].
    assert (existsb (λ keyword, PyStr.contains keyword interest) entry.2 = true) as E'.
    { apply existsb_exists. exists k. by rewrite <- list_elem_of_In. }
    congruence.
Qed.

Lemma category_loop_elem (interest cat : string) (table : list (string * list string))
    (categories : list string) :
  cat ∈ foldl (category_step interest) categories table
  ↔ cat ∈ categories
    ∨ ∃ kws k, (cat, kws) ∈ table ∧ k ∈ kws ∧ PyStr.contains k interest = true.
Proof.
  revert categories. induction table as [| [c kws] table IH]; intros categories; simpl.
  - split; [by left |]. intros [? | (? & ? & []%elem_of_nil & _)]. done.
  - rewrite IH, category_step_elem. simpl. split.
    + intros [[? | (-> & k & ? & ?)] | (kws' & k & ? & ? & ?)].
      * by left.
      * right. exists kws, k. split_and!; [by left | done | done].
      * right. exists kws', k. split_and!; [by right | done | done].
    + intros [? | (kws' & k & [Heq | ?]%elem_of_cons & ? & ?)].
      * by do 2 left.
      * injection Heq as -> ->. left. right. split; [done |]. by exists k.
      * right. by exists kws', k.
Qed.

Lemma interests_loop_elem (cat : string) (ins categories : list string) :
  cat ∈ foldl (λ categories interest,
                 foldl (category_step interest) categories category_keywords)
              categories ins
  ↔ cat ∈ categories ∨ ∃ interest, interest ∈ ins ∧ makes_category interest cat.
Proof.
  revert categories. induction ins as [| i ins IH]; intros categories; cbn [foldl].
  - split; [by left |]. intros [? | (? & []%elem_of_nil & _)]. done.
  - rewrite IH, category_loop_elem. split.
    + intros [[? | ?] | (j & ? & ?)].
      * by left.
      * right. exists i. split; [by left | done].
      * right. exists j. split; [by right | done].
    + intros [? | (j & [-> | ?]%elem_of_cons & ?)].
      * by do 2 left.
      * left. by right.
      * right. by exists j.
Qed.

Lemma derived_category_elem (inp : InterestsInput) (cat : string) :
  cat ∈ _derive_categories_from_interests inp
  ↔ ∃ interest, interest ∈ _process_interests inp ∧ makes_category interest cat.
Proof.
  unfold _derive_categories_from_interests. rewrite interests_loop_elem.
  split; [intros [[]%elem_of_nil | ?]; done | by right].
Qed.


End Categories.

(** * Worked examples *)

Example lower_ex : PyStr.lower "AI/ML Web Dev" = "ai/ml web dev".
Proof. reflexivity. Qed.

Example title_ex : PyStr.title "2nd year" = "2Nd Year".
Proof. reflexivity. Qed.

Example strip_ex : PyStr.strip "  a b  " = "a b".
Proof. reflexivity. Qed.

Example split_ex : PyStr.split " park  ranger " = ["park"; "ranger"].
Proof. reflexivity. Qed.

Example contains_ex : PyStr.contains "art" "smart" = true /\ PyStr.contains "art" "Art" = false.
Proof. split; reflexivity. Qed.

Example join_ex : PyStr.join ", " ["a"; "b"; "c"] = "a, b, c".
Proof. reflexivity. Qed.

Example re_split_ex :
  re_split 0 "art, music and data science;x" = ["art"; " music"; "data science"; "x"].
Proof. reflexivity. Qed.

Example career_goal_ex : _process_career_goal "I want to be a Nurse" = "nurse".
Proof. reflexivity. Qed.

Example level_ex :
  _process_education_level " Freshman " = "1st year"
  ∧ _process_education_level "Year 9" = "Year 9".
Proof. split; reflexivity. Qed.

(** The scenario of the specification: the title match comes first, the
    other first-year course is backfilled, the second-year course is left
    out. *)
Example scenario_ex :
  course_id <$> CourseRAG.get_recommended_courses scenario_catalog programming_profile
  = ["CS101"; "ART150"].
Proof. by vm_compute. Qed.

Example scenario_scores_ex :
  keyword_score ["programming"] <$> scenario_catalog = [3; 0; 0].
Proof. by vm_compute. Qed.

Example sample_summary_ex :
  summary_parts (process_user_input get_sample_inputs)
  = [ "Education Level: 2Nd Year";
      "Interests: computer science, business, data analysis";
      "Career Goal: Software Engineer";
      "Additional Notes: I am particularly interested in artificial intelligence and machine learning applications in busines..." ].
Proof. by vm_compute. Qed.

(** A negative [max_results] counts from the end of the ranking. *)
Example negative_slice_ex : slice_to (-1) [1; 2; 3] = [1; 2].
Proof. reflexivity. Qed.

(** * Further properties: the catalog queries *)

Section CatalogQueries.

Import CourseRAG.

Lemma find_by_id_some (id : string) (l : list Course) (c : Course) :
  find_by_id id l = Some c →
  ∃ pre post, l = pre ++ c :: post ∧ course_id c = id ∧ ∀ d, d ∈ pre → course_id d ≠ id.
Proof.
  induction l as [| x l IH]; simpl; [done |].
  case_decide as Hx.
  - intros [= ->]. exists [], l. split_and!; [done | done |].
    by intros d Hd%elem_of_nil.
  - intros (pre & post & -> & Hid & Hpre)%IH. exists (x :: pre), post.
    split_and!; [done | done |]. by intros d [-> | Hd]%elem_of_cons; [| apply Hpre].
Qed.

Lemma find_by_id_none (id : string) (l : list Course) :
  find_by_id id l = None ↔ ∀ c, c ∈ l → course_id c ≠ id.
Proof.
  induction l as [| x l IH]; simpl.
  - split; [by intros _ c Hc%elem_of_nil | done].
  - case_decide as Hx.
    + split; [done |]. intros H. by destruct (H x); [left |].
    + rewrite IH. split.
      * by intros H c [-> | Hc]%elem_of_cons; [| apply H].
      * intros H c Hc. apply H. by right.
Qed.

(** X1. [get_course_by_id] finds a course exactly when the catalog has one
    with the id; the course found has the id and is the first of the
    catalog that has it. *)
Theorem course_lookup_finds_first (courses : list Course) (id : string) :
  (get_course_by_id courses id = None ↔ ∀ c, c ∈ courses → course_id c ≠ id)
  ∧ ∀ c, get_course_by_id courses id = Some c →
         ∃ pre post, courses = pre ++ c :: post
                     ∧ course_id c = id
                     ∧ ∀ d, d ∈ pre → course_id d ≠ id.
Proof. split; [apply find_by_id_none | apply find_by_id_some]. Qed.

(** X2. When the ids of the catalog are unique, every course of the catalog
    is found by its own id. *)
Theorem course_lookup_round_trip (courses : list Course) (c : Course) :
  NoDup (course_id <$> courses) → c ∈ courses →
  get_course_by_id courses (course_id c) = Some c.
Proof.
  intros Hnd Hc. unfold get_course_by_id.
  destruct (find_by_id (course_id c) courses) as [d |] eqn:E.
  - apply find_by_id_some in E as (pre & post & -> & Hid & Hpre).
    rewrite fmap_app, fmap_cons in Hnd.
    apply NoDup_app in Hnd as (_ & Hdisj & Hnd). apply NoDup_cons in Hnd as [Hd _].
    apply elem_of_app in Hc as [Hc | Hc]; [by destruct (Hpre c Hc) |].
    apply elem_of_cons in Hc as [-> | Hc]; [done |].
    destruct Hd. rewrite Hid. by apply list_elem_of_fmap_2.
  - apply find_by_id_none with (c := c) in E; done.
Qed.

Lemma course_lookup_witness :
  NoDup (course_id <$> scenario_catalog)
  ∧ cs101 ∈ scenario_catalog
  ∧ get_course_by_id scenario_catalog (course_id cs101) = Some cs101.
Proof.
  assert (NoDup (course_id <$> scenario_catalog)) as Hnd.
  { apply (bool_decide_unpack _). by vm_compute. }
  assert (cs101 ∈ scenario_catalog) as Hin by (by left).
  split_and!; [exact Hnd | exact Hin |].
  exact (course_lookup_round_trip scenario_catalog cs101 Hnd Hin).
Defined.

Lemma lower_idempotent (s : string) : PyStr.lower (PyStr.lower s) = PyStr.lower s.
Proof. apply str_all_lower_fixed, str_all_lower. Qed.

(** X3. [get_courses_by_semester] keeps, in catalog order, exactly the
    courses one of whose semesters is the query up to case; the case of the
    query does not matter, and a course without semesters is never kept. *)
Theorem semester_filter_ignores_case (courses : list Course) (semester : string) :
  get_courses_by_semester courses semester `sublist_of` courses
  ∧ (∀ c, c ∈ get_courses_by_semester courses semester
          ↔ c ∈ courses
            ∧ ∃ s, s ∈ default [] (semesters c) ∧ PyStr.lower s = PyStr.lower semester)
  ∧ get_courses_by_semester courses (PyStr.lower semester)
    = get_courses_by_semester courses semester
  ∧ ∀ c, semesters c = None → c ∉ get_courses_by_semester courses semester.
Proof.
  unfold get_courses_by_semester. split_and!.
  - apply sublist_filter.
  - intros c. rewrite list_elem_of_filter, list_elem_of_fmap.
    split.
    + intros [(s & Hs & Hin) Hc]. split; [done |]. by exists s.
    + intros [Hc (s & Hs & Hin)]. split; [| done]. by exists s.
  - by rewrite lower_idempotent.
  - intros c Hc [Hin _]%list_elem_of_filter. rewrite Hc in Hin.
    by apply elem_of_nil in Hin.
Qed.

End CatalogQueries.

(** * Further properties: the level and category filters *)

Section LevelAndCategory.

Import CourseRAG.

(** Every value of the engine's level table is a key that maps to itself. *)
Lemma level_map_canonical (k v : string) :
  dict_get k CourseRAG.level_map = Some v →
  dict_get (PyStr.lower v) CourseRAG.level_map = Some v ∧ PyStr.lower v = v.
Proof.
  unfold CourseRAG.level_map, dict_get.
  repeat (case_decide; [intros [= <-]; by vm_compute |]). done.
Qed.

(** X4. The level filter keeps courses in catalog order, does not depend on
    the case of the level asked for, and gives for a synonym of the table
    ("freshman", "grad") what it gives for the level the synonym stands
    for. *)
Theorem level_search_case_and_synonyms (courses : list Course) (lvl : string) :
  search_courses_by_level courses lvl `sublist_of` courses
  ∧ search_courses_by_level courses (PyStr.lower lvl) = search_courses_by_level courses lvl
  ∧ ∀ canonical, dict_get (PyStr.lower lvl) CourseRAG.level_map = Some canonical →
      search_courses_by_level courses lvl = search_courses_by_level courses canonical
      ∧ ∀ c, c ∈ search_courses_by_level courses lvl
             ↔ c ∈ courses ∧ PyStr.lower (default "" (level c)) = canonical.
Proof.
  unfold search_courses_by_level. split_and!.
  - apply sublist_filter.
  - rewrite lower_idempotent.
    destruct (dict_get (PyStr.lower lvl) CourseRAG.level_map); simpl; [done |].
    by rewrite lower_idempotent.
  - intros v Hv. destruct (level_map_canonical _ _ Hv) as [Hv' Hlow].
    rewrite Hv, Hv'. simpl. split; [done |].
    intros c. rewrite list_elem_of_filter, Hlow. tauto.
Qed.

Lemma contains_empty (s : string) : PyStr.contains "" s = true.
Proof. by apply contains_startswith. Qed.

Lemma filter_all {A} (P : A → Prop) `{∀ x, Decision (P x)} (l : list A) :
  (∀ x, x ∈ l → P x) → filter P l = l.
Proof.
  induction l as [| x l IH]; intros Hall; [done |].
  rewrite filter_cons, decide_True by (apply Hall; by left).
  f_equal. apply IH. intros y Hy. apply Hall. by right.
Qed.

(** X5. The category filter keeps courses in catalog order and does not
    depend on the case of the category asked for; the empty category
    matches every course, so it gives the whole catalog. *)
Theorem category_search_case_and_empty (courses : list Course) (cat : string) :
  search_courses_by_category courses cat `sublist_of` courses
  ∧ search_courses_by_category courses (PyStr.lower cat)
    = search_courses_by_category courses cat
  ∧ search_courses_by_category courses "" = courses.
Proof.
  unfold search_courses_by_category. split_and!.
  - apply sublist_filter.
  - rewrite lower_idempotent.
    destruct (dict_get (PyStr.lower cat) category_map); simpl; [done |].
    by rewrite lower_idempotent.
  - apply filter_all. intros c _.
    change (PyStr.contains "" (PyStr.lower (default "" (category c))) || false = true).
    by rewrite contains_empty.
Qed.

End LevelAndCategory.

(** * Further properties: blank keywords *)

Section BlankKeyword.

Import CourseRAG.

Lemma space_not_upper (c : ascii) : PyStr.is_space c = true → PyStr.is_upper c = false.
Proof. destruct c as [[] [] [] [] [] [] [] []]; by vm_compute. Qed.

Lemma rstrip_cons_not_space (c : ascii) (s : string) :
  PyStr.is_space c = false → ∃ r, PyStr.rstrip (String c s) = String c r.
Proof.
  intros Hc. simpl. destruct (PyStr.rstrip s); [| by eexists].
  rewrite Hc. by eexists.
Qed.

Lemma strip_empty_all_space (k : string) :
  PyStr.strip k = "" → str_all PyStr.is_space k = true.
Proof.
  unfold PyStr.strip. induction k as [| c k IH]; [done |]. simpl.
  destruct (PyStr.is_space c) eqn:Hc; [done |].
  intros H. destruct (rstrip_cons_not_space c k Hc) as [r Hr]. congruence.
Qed.

Lemma all_space_lower (k : string) : str_all PyStr.is_space k = true → PyStr.lower k = k.
Proof.
  intros H. apply str_all_lower_fixed. revert H. apply str_all_impl.
  intros c Hc. by rewrite (space_not_upper c Hc).
Qed.

(** No key of the interest table is blank. *)
Lemma blank_not_an_interest_key (k : string) :
  str_all PyStr.is_space k = true → dict_get k interest_mapping = None.
Proof.
  unfold interest_mapping, dict_get. intros Hk.
  repeat (case_decide as E; [subst k; by vm_compute in Hk | clear E]). done.
Qed.

Lemma blank_keyword_score (k : string) (c : Course) :
  PyStr.strip k = "" → keyword_score [k] c = 3.
Proof.
  intros Hk. pose proof (strip_empty_all_space k Hk) as Hsp.
  unfold keyword_score, expansion. simpl.
  rewrite (blank_not_an_interest_key k Hsp). simpl.
  unfold keyword_points. cbv zeta.
  rewrite lower_idempotent, (all_space_lower k Hsp), Hk, !contains_empty. done.
Qed.

(** When every course has the same positive score, the ranking is the
    catalog. *)
Lemma ranking_of_equal_scores (courses : list Course) (keywords : list string) (s : nat) :
  0 < s → (∀ c, c ∈ courses → keyword_score keywords c = s) →
  ranking courses keywords = courses.
Proof.
  intros Hs Hall.
  rewrite <- (filter_all (λ c, keyword_score keywords c = s) courses Hall) at 2.
  rewrite <- (ranking_stable courses keywords s Hs).
  symmetry. apply filter_all. intros c Hc.
  rewrite (ranking_perm courses keywords) in Hc.
  apply list_elem_of_filter in Hc as [_ Hc]. by apply Hall.
Qed.

(** X6. A blank keyword (empty, or white space only) scores 3 on every
    course, so the scored search for it returns the first [max_results]
    courses of the catalog, in catalog order. *)
Theorem blank_keyword_matches_every_course
    (courses : list Course) (k : string) (max_results : Z) :
  PyStr.strip k = "" → (0 ≤ max_results)%Z →
  search_courses_by_keywords courses [k] max_results = take (Z.to_nat max_results) courses.
Proof.
  intros Hk Hm. rewrite search_is_slice_of_ranking. unfold slice_to.
  rewrite (proj2 (Z.leb_le 0 max_results) Hm).
  rewrite (ranking_of_equal_scores courses [k] 3); [done | lia |].
  intros c _. by apply blank_keyword_score.
Qed.

Lemma blank_keyword_witness :
  PyStr.strip " " = ""
  ∧ (0 ≤ 2)%Z
  ∧ search_courses_by_keywords scenario_catalog [" "] 2 = take (Z.to_nat 2) scenario_catalog.
Proof.
  split_and!; [reflexivity | lia |].
  apply (blank_keyword_matches_every_course scenario_catalog " " 2); [reflexivity | lia].
Defined.

End BlankKeyword.

(** * Further properties: the normaliser *)

Section Trimming.

Import PyStr.

Lemma lstrip_head (s : string) : head_not_space (lstrip s).
Proof.
  induction s as [| c s IH]; simpl; [done |].
  destruct (is_space c) eqn:Hc; [done | exact Hc].
Qed.

Lemma lstrip_fixed (s : string) : head_not_space s → lstrip s = s.
Proof. destruct s as [| c s]; simpl; [done |]. by intros ->. Qed.

Lemma rstrip_head (s : string) : head_not_space s → head_not_space (rstrip s).
Proof.
  destruct s as [| c s]; [done |]. intros Hc.
  by destruct (rstrip_cons_not_space c s Hc) as [r ->].
Qed.

Lemma rstrip_idempotent (s : string) : rstrip (rstrip s) = rstrip s.
Proof.
  induction s as [| c s IH]; [done |]. simpl.
  destruct (rstrip s) as [| d r] eqn:E.
  - destruct (is_space c) eqn:Hc; [done |]. simpl. by rewrite Hc.
  - change (rstrip (String c (String d r))) with
      (match rstrip (String d r) with
       | EmptyString => if is_space c then EmptyString else String c EmptyString
       | String a b => String c (String a b)
       end).
    by rewrite IH.
Qed.

Lemma strip_head (s : string) : head_not_space (strip s).
Proof. apply rstrip_head, lstrip_head. Qed.

Lemma strip_idempotent (s : string) : strip (strip s) = strip s.
Proof.
  unfold strip at 1. rewrite (lstrip_fixed (strip s)) by apply strip_head.
  apply rstrip_idempotent.
Qed.

Lemma startswith_trans (p q s : string) :
  startswith p q = true → startswith q s = true → startswith p s = true.
Proof.
  revert q s. induction p as [| a p IH]; intros [| b q] [| c s]; simpl; try done.
  repeat case_decide; subst; try done. apply IH.
Qed.

End Trimming.

Section EducationAndCareer.

(** Every value of the normaliser's level table is a canonical level, and a
    canonical level is left as it is. *)
Lemma normaliser_level_values (k v : string) :
  dict_get k UserProfileProcessor.level_map = Some v →
  v ∈ canonical_levels ∧ _process_education_level v = v.
Proof.
  unfold UserProfileProcessor.level_map, dict_get.
  repeat (case_decide;
          [intros [= <-]; split; [apply (bool_decide_unpack _) |]; by vm_compute |]).
  done.
Qed.

Lemma education_level_canonical_or_kept (x : string) :
  _process_education_level x ∈ canonical_levels ∨ _process_education_level x = x.
Proof.
  unfold _process_education_level. destruct x as [| c x]; [by right |]. simpl.
  destruct (dict_get _ UserProfileProcessor.level_map) as [v |] eqn:E; [left | by right].
  by destruct (normaliser_level_values _ _ E).
Qed.

Lemma education_level_twice (x : string) :
  _process_education_level (_process_education_level x) = _process_education_level x.
Proof.
  unfold _process_education_level at 2 3. destruct x as [| c x]; [done |]. simpl.
  destruct (dict_get _ UserProfileProcessor.level_map) as [v |] eqn:E; simpl.
  - by destruct (normaliser_level_values _ _ E).
  - unfold _process_education_level. simpl. by rewrite E.
Qed.

(** X7. Normalising an education level twice gives what normalising it once
    gives; the result is one of the five canonical levels, or else the
    input itself, unchanged (not trimmed, not lowercased). *)
Theorem education_level_normalised_once (x : string) :
  _process_education_level (_process_education_level x) = _process_education_level x
  ∧ (_process_education_level x ∈ canonical_levels ∨ _process_education_level x = x).
Proof. split; [apply education_level_twice | apply education_level_canonical_or_kept]. Qed.

Lemma remove_first_prefix_trimmed (prefixes : list string) (s : string) :
  PyStr.strip s = s →
  PyStr.strip (remove_first_prefix prefixes s) = remove_first_prefix prefixes s.
Proof.
  intros Hs. induction prefixes as [| p prefixes IH]; simpl; [done |].
  destruct (PyStr.startswith p s); [apply strip_idempotent | done].
Qed.

Lemma remove_first_prefix_chars (P : ascii → bool) (prefixes : list string) (s : string) :
  str_all P s = true → str_all P (remove_first_prefix prefixes s) = true.
Proof.
  intros Hs. induction prefixes as [| p prefixes IH]; simpl; [done |].
  destruct (PyStr.startswith p s); [| done]. by apply str_all_strip, str_all_drop.
Qed.

Lemma career_goal_lower (x : string) :
  PyStr.lower (_process_career_goal x) = _process_career_goal x.
Proof.
  unfold _process_career_goal. destruct (negb _); [done |].
  apply str_all_lower_fixed, remove_first_prefix_chars, str_all_strip, str_all_lower.
Qed.

Lemma career_goal_trimmed (x : string) :
  PyStr.strip (_process_career_goal x) = _process_career_goal x.
Proof.
  unfold _process_career_goal. destruct (negb _); [done |].
  apply remove_first_prefix_trimmed, strip_idempotent.
Qed.

(** X8. A normalised career goal has no capital letter and no white space
    at either end. *)
Theorem career_goal_lowercase_and_trimmed (x : string) :
  PyStr.lower (_process_career_goal x) = _process_career_goal x
  ∧ PyStr.strip (_process_career_goal x) = _process_career_goal x.
Proof. split; [apply career_goal_lower | apply career_goal_trimmed]. Qed.

(** A prefix listed after one of its own prefixes is never the first match. *)
Lemma remove_first_prefix_shadowed (p q : string) (rest : list string) (s : string) :
  PyStr.startswith p q = true →
  remove_first_prefix (p :: q :: rest) s = remove_first_prefix (p :: rest) s.
Proof.
  intros Hpq. simpl. destruct (PyStr.startswith p s) eqn:Hp; [done |].
  destruct (PyStr.startswith q s) eqn:Hq; [| done].
  by rewrite (startswith_trans p q s Hpq Hq) in Hp.
Qed.

Lemma remove_first_prefix_tail (p : string) (l1 l2 : list string) (s : string) :
  remove_first_prefix l1 s = remove_first_prefix l2 s →
  remove_first_prefix (p :: l1) s = remove_first_prefix (p :: l2) s.
Proof. intros H. simpl. by destruct (PyStr.startswith p s). Qed.

(** X9. The prefixes that end in "an" are never removed: each comes after
    the prefix that ends in "a", which matches first. So the goal
    "i want to be an ..." loses "i want to be a" and keeps the "n". *)
Theorem career_goal_an_prefixes_never_apply :
  (∀ s, remove_first_prefix prefixes_to_remove s = remove_first_prefix a_prefixes s)
  ∧ ∀ rest, remove_first_prefix prefixes_to_remove ("i want to be an" +:+ rest)
            = PyStr.strip ("n" +:+ rest).
Proof.
  split.
  - intros s. unfold prefixes_to_remove, a_prefixes.
    repeat (rewrite remove_first_prefix_shadowed by reflexivity;
            apply remove_first_prefix_tail).
    reflexivity.
  - intros rest. reflexivity.
Qed.

End EducationAndCareer.

Section DerivedCategories.

Lemma category_step_nodup (interest : string) (categories : list string)
    (entry : string * list string) :
  NoDup categories → NoDup (category_step interest categories entry).
Proof.
  intros Hnd. unfold category_step.
  destruct (existsb _ _); [| done]. case_bool_decide as Hnew; [| done].
  apply NoDup_app. split_and!; [done | | apply NoDup_singleton].
  by intros x Hx ->%list_elem_of_singleton.
Qed.

Lemma category_loop_nodup (interest : string) (table : list (string * list string))
    (categories : list string) :
  NoDup categories → NoDup (foldl (category_step interest) categories table).
Proof.
  revert categories. induction table as [| e table IH]; intros categories Hnd; [done |].
  apply IH. by apply category_step_nodup.
Qed.

Lemma derived_categories_nodup (inp : InterestsInput) :
  NoDup (_derive_categories_from_interests inp).
Proof.
  unfold _derive_categories_from_interests.
  generalize (_process_interests inp). intros ins.
  assert (NoDup (@nil string)) as Hnil by constructor. revert Hnil.
  generalize (@nil string). induction ins as [| i ins IH]; intros acc Hacc; [done |].
  cbn [foldl]. apply IH. by apply category_loop_nodup.
Qed.

(** X10. The derived categories are pairwise distinct names of the category
    tables, so there are at most eleven of them. *)
Theorem derived_categories_distinct_table_names (inp : InterestsInput) :
  NoDup (_derive_categories_from_interests inp)
  ∧ (∀ cat, cat ∈ _derive_categories_from_interests inp → cat ∈ category_keywords.*1)
  ∧ length (_derive_categories_from_interests inp) ≤ 11.
Proof.
  assert (∀ cat, cat ∈ _derive_categories_from_interests inp → cat ∈ category_keywords.*1)
    as Hnames.
  { intros cat (i & _ & kws & k & Hin & _)%derived_category_elem.
    apply list_elem_of_fmap. by exists (cat, kws). }
  split_and!; [apply derived_categories_nodup | exact Hnames |].
  change 11 with (length category_keywords.*1).
  apply submseteq_length, NoDup_submseteq; [apply derived_categories_nodup | exact Hnames].
Qed.

End DerivedCategories.

Section Renormalisation.

Lemma clean_text_nonempty (piece : string) :
  1 < String.length (clean_text piece) → clean_text piece ≠ "".
Proof. destruct (clean_text piece); simpl; [lia | done]. Qed.

(** Every normalised interest is trimmed and not empty. *)
Lemma process_interests_entries (inp : InterestsInput) (e : string) :
  e ∈ _process_interests inp → PyStr.strip e = e ∧ e ≠ "".
Proof.
  destruct inp as [s | l |].
  - rewrite process_interests_text.
    intros [Hlen He]%elem_of_take_elem%list_elem_of_filter.
    apply list_elem_of_fmap in He as (piece & -> & _).
    split; [apply strip_idempotent | by apply clean_text_nonempty].
  - rewrite process_interests_items.
    intros [Hne He]%elem_of_take_elem%list_elem_of_filter.
    apply list_elem_of_fmap in He as (x & -> & _).
    split; [apply strip_idempotent | done].
  - by intros ?%elem_of_nil.
Qed.

Lemma process_interests_length (inp : InterestsInput) : length (_process_interests inp) ≤ 15.
Proof.
  destruct inp as [s | l |];
    [rewrite process_interests_text | rewrite process_interests_items | simpl; lia];
    rewrite length_take; lia.
Qed.

Lemma fmap_fixed {A} (f : A → A) (l : list A) : (∀ x, x ∈ l → f x = x) → f <$> l = l.
Proof.
  induction l as [| x l IH]; intros H; [done |].
  rewrite fmap_cons, H by (by left). f_equal. apply IH. intros y Hy. apply H. by right.
Qed.

(** The normalised interests, given back as a list, are normalised. *)
Lemma process_interests_fixed (inp : InterestsInput) :
  _process_interests (Items (_process_interests inp)) = _process_interests inp.
Proof.
  rewrite process_interests_items.
  rewrite fmap_fixed by (intros e He; by apply (process_interests_entries inp)).
  rewrite filter_all by (intros e He; by apply (process_interests_entries inp)).
  apply take_ge, process_interests_length.
Qed.

Lemma remove_first_prefix_no_match (prefixes : list string) (s : string) :
  (∀ q, q ∈ prefixes → PyStr.startswith q s = false) →
  remove_first_prefix prefixes s = s.
Proof.
  induction prefixes as [| p prefixes IH]; intros H; simpl; [done |].
  rewrite H by (by left). apply IH. intros q Hq. apply H. by right.
Qed.

Lemma career_goal_fixed (g : string) :
  PyStr.lower g = g → PyStr.strip g = g →
  (∀ q, q ∈ prefixes_to_remove → PyStr.startswith q g = false) →
  _process_career_goal g = g.
Proof.
  intros Hl Hs Hq. unfold _process_career_goal. destruct g as [| c g]; [done |].
  cbn [PyStr.truthy negb]. rewrite Hl, Hs. by apply remove_first_prefix_no_match.
Qed.

(** X11. Normalising a profile that is already normalised (given back as raw
    input, without the derived categories) keeps the education level, the
    interests, the derived categories and the additional information,
    whatever the first raw input was; it keeps the career goal too, and so
    the whole profile, when no removable prefix starts the normalised
    goal. *)
Theorem renormalisation_keeps_profile (raw_input : RawInput) :
  (education_level (process_user_input (raw_of_profile (process_user_input raw_input)))
   = education_level (process_user_input raw_input)
   ∧ interests (process_user_input (raw_of_profile (process_user_input raw_input)))
     = interests (process_user_input raw_input)
   ∧ preferred_categories (process_user_input (raw_of_profile (process_user_input raw_input)))
     = preferred_categories (process_user_input raw_input)
   ∧ additional_info (process_user_input (raw_of_profile (process_user_input raw_input)))
     = additional_info (process_user_input raw_input))
  ∧ ((∀ q, q ∈ prefixes_to_remove →
           PyStr.startswith q (career_goal (process_user_input raw_input)) = false) →
     process_user_input (raw_of_profile (process_user_input raw_input))
     = process_user_input raw_input).
Proof.
  unfold process_user_input, raw_of_profile.
  cbn [education_level interests career_goal preferred_categories additional_info
       raw_education_level raw_interests raw_career_goal raw_additional_info].
  assert (_derive_categories_from_interests (Items (_process_interests (raw_interests raw_input)))
          = _derive_categories_from_interests (raw_interests raw_input)) as Hcat.
  { unfold _derive_categories_from_interests. by rewrite process_interests_fixed. }
  split; [split_and! |].
  - apply education_level_twice.
  - apply process_interests_fixed.
  - exact Hcat.
  - apply strip_idempotent.
  - intros Hq.
    rewrite education_level_twice, process_interests_fixed, Hcat, strip_idempotent.
    rewrite career_goal_fixed;
      [done | apply career_goal_lower | apply career_goal_trimmed | exact Hq].
Qed.

Lemma renormalisation_witness :
  (∀ q, q ∈ prefixes_to_remove →
        PyStr.startswith q (career_goal (process_user_input get_sample_inputs)) = false)
  ∧ process_user_input (raw_of_profile (process_user_input get_sample_inputs))
    = process_user_input get_sample_inputs.
Proof.
  assert (∀ q, q ∈ prefixes_to_remove →
               PyStr.startswith q (career_goal (process_user_input get_sample_inputs)) = false)
    as Hq.
  { apply Forall_forall. apply (bool_decide_unpack _). by vm_compute. }
  split; [exact Hq |].
  exact (proj2 (renormalisation_keeps_profile get_sample_inputs) Hq).
Defined.

End Renormalisation.

Section Suggestions.

(** X12. [suggest_missing_info] gives one suggestion for each of the three
    fields that is empty, so as many as [validate_profile] has warnings
    about a missing field; it gives none exactly when the level, the
    interests and the career goal are all present. *)
Theorem suggestions_follow_missing_fields (p : Profile) :
  length (suggest_missing_info p)
  = length (filter (λ w, w ≠ warn_many_interests) (warnings (validate_profile p)))
  ∧ (suggest_missing_info p = []
     ↔ education_level p ≠ "" ∧ interests p ≠ [] ∧ career_goal p ≠ "").
Proof.
  destruct p as [lvl ins goal cats info].
  unfold suggest_missing_info, validate_profile.
  cbn [education_level interests career_goal warnings].
  destruct lvl as [| a lvl], goal as [| b goal], ins as [| i ins];
    try destruct (Nat.ltb_spec 10 (length (i :: ins))) as [E | E];
    cbn [PyStr.truthy negb app]; (split; [by vm_compute | split; [done |]]);
    try (by intros (? & ? & ?)); done.
Qed.

End Suggestions.

(** * Further properties: the display of the level and the course context *)

Section LevelDisplay.

Import AICourseAdvisor.

Lemma title_char_facts (c : ascii) :
  PyStr.is_cased (PyStr.lower_char c) = PyStr.is_cased c
  ∧ PyStr.lower_char (PyStr.lower_char c) = PyStr.lower_char c
  ∧ PyStr.upper_char (PyStr.lower_char c) = PyStr.upper_char c
  ∧ (PyStr.is_cased c = false → PyStr.lower_char c = c).
Proof. destruct c as [[] [] [] [] [] [] [] []]; by vm_compute. Qed.

Lemma title_from_lower (b : bool) (s : string) :
  PyStr.title_from b (PyStr.lower s) = PyStr.title_from b s.
Proof.
  revert b. induction s as [| c s IH]; intros b; simpl; [done |].
  destruct (title_char_facts c) as (Hcased & Hlow & Hup & Hkeep).
  rewrite Hcased, Hlow, Hup, !IH.
  destruct (PyStr.is_cased c); [done |]. by rewrite Hkeep.
Qed.

Lemma title_nonempty (s : string) : PyStr.title s = "" → s = "".
Proof. destruct s as [| c s]; [done |]. unfold PyStr.title. simpl. by destruct (PyStr.is_cased c). Qed.

Lemma lower_never_not_specified (s : string) : PyStr.lower s ≠ "Not specified".
Proof.
  intros H. pose proof (str_all_lower s) as Hl. rewrite H in Hl. by vm_compute in Hl.
Qed.

Lemma truthy_lower (s : string) : PyStr.truthy (PyStr.lower s) = PyStr.truthy s.
Proof. by destruct s. Qed.

(** X13. The level shown to the language model is never empty; it does not
    depend on the case of the level (the text "Not specified" apart, which
    is recognised in that spelling only); and a canonical level, in any
    case, is shown by its display name. *)
Theorem formatted_level_display (lvl : string) :
  _format_education_level lvl ≠ ""
  ∧ (lvl ≠ "Not specified" →
     _format_education_level (PyStr.lower lvl) = _format_education_level lvl)
  ∧ (PyStr.lower lvl ∈ canonical_levels → _format_education_level lvl ∈ display_levels).
Proof.
  unfold _format_education_level. split_and!.
  - destruct (negb _ || _) eqn:E; [done |].
    apply orb_false_iff in E as [E _]. apply negb_false_iff in E.
    destruct (dict_get (PyStr.lower lvl) level_mappings) as [v |] eqn:Ev.
    + revert Ev. unfold level_mappings, dict_get.
      repeat (case_decide; [by intros [= <-] |]). done.
    + intros Ht%title_nonempty. by rewrite Ht in E.
  - intros Hns. rewrite truthy_lower, lower_idempotent.
    rewrite (bool_decide_eq_false_2 (PyStr.lower lvl = "Not specified"))
      by apply lower_never_not_specified.
    rewrite (bool_decide_eq_false_2 (lvl = "Not specified")) by done.
    destruct (negb _ || false); [done |].
    destruct (dict_get _ level_mappings); [done |]. apply title_from_lower.
  - intros Hc.
    assert (PyStr.truthy lvl = true) as Ht.
    { destruct lvl; [apply (bool_decide_pack _) in Hc; by vm_compute in Hc | done]. }
    assert (lvl ≠ "Not specified") as Hns.
    { intros ->. apply (bool_decide_pack _) in Hc. by vm_compute in Hc. }
    rewrite Ht, (bool_decide_eq_false_2 _ Hns). simpl.
    unfold canonical_levels in Hc. rewrite !elem_of_cons in Hc.
    destruct Hc as [-> | [-> | [-> | [-> | [-> | []%elem_of_nil]]]]];
      apply (bool_decide_unpack _); by vm_compute.
Qed.

End LevelDisplay.

Section CourseContext.

Import CourseRAG.

Lemma startswith_app_l (k s b : string) :
  PyStr.startswith k s = true → PyStr.startswith k (s +:+ b) = true.
Proof.
  revert s. induction k as [| a k IH]; intros [| c s]; try done.
  rewrite append_cons. simpl. case_decide; [apply IH | done].
Qed.

Lemma contains_app_l (k s b : string) :
  PyStr.contains k s = true → PyStr.contains k (s +:+ b) = true.
Proof.
  induction s as [| c s IH].
  - destruct k; [intros _; apply contains_empty | done].
  - rewrite append_cons. simpl. intros [H | H]%orb_true_iff.
    + apply (startswith_app_l k (String c s) b) in H. rewrite append_cons in H.
      simpl in H. by rewrite H.
    + rewrite (IH H). apply orb_true_r.
Qed.

(** The lines of one course in the context: its rank, a dot, its text. *)
Lemma context_step_block (context : string) (entry : nat * Course) :
  context_step context entry
  = context +:+ (pretty entry.1 +:+ ". " +:+ format_course_for_llm entry.2 +:+ newline)
              +:+ "".
Proof. unfold context_step. by rewrite append_nil_r. Qed.

Lemma context_loop_keeps (x : string) (entries : list (nat * Course)) (context : string) :
  PyStr.contains x context = true →
  PyStr.contains x (foldl context_step context entries) = true.
Proof.
  revert context. induction entries as [| e entries IH]; intros context H; [done |].
  cbn [foldl]. apply IH. unfold context_step. by apply contains_app_l.
Qed.

Lemma context_loop_shows (entries : list (nat * Course)) (context : string)
    (e : nat * Course) :
  e ∈ entries →
  PyStr.contains (pretty e.1 +:+ ". " +:+ format_course_for_llm e.2 +:+ newline)
                 (foldl context_step context entries) = true.
Proof.
  revert context. induction entries as [| x entries IH]; intros context Hin.
  - by apply elem_of_nil in Hin.
  - cbn [foldl]. apply elem_of_cons in Hin as [-> | Hin]; [| by apply IH].
    apply context_loop_keeps. rewrite context_step_block. apply contains_middle.
Qed.

Lemma context_loop_starts (k : string) (entries : list (nat * Course)) (context : string) :
  PyStr.startswith k context = true →
  PyStr.startswith k (foldl context_step context entries) = true.
Proof.
  revert context. induction entries as [| e entries IH]; intros context H; [done |].
  cbn [foldl]. apply IH. unfold context_step. by apply startswith_app_l.
Qed.

(** X14. The context for the language model is the fixed "no courses" text
    for the empty list; for any other list it starts with the heading and
    shows every course of the list: its rank counted from 1, a dot, and the
    text [format_course_for_llm] gives the course. *)
Theorem context_shows_every_ranked_course (recommended_courses : list Course) :
  (recommended_courses = [] ↔
   get_context_for_llm recommended_courses = "No courses found matching the criteria.")
  ∧ (recommended_courses ≠ [] →
     PyStr.startswith "Here are the recommended courses:"
                      (get_context_for_llm recommended_courses) = true)
  ∧ ∀ i course, recommended_courses !! i = Some course →
      shows (pretty (S i) +:+ ". " +:+ format_course_for_llm course +:+ newline)
            (get_context_for_llm recommended_courses).
Proof.
  split_and!.
  - split; [by intros -> |]. destruct recommended_courses as [| c l]; [done |].
    unfold get_context_for_llm. intros H.
    assert (PyStr.startswith "H" (foldl context_step
              ("Here are the recommended courses:" +:+ newline +:+ newline)
              (zip (seq 1 (length (c :: l))) (c :: l))) = true) as Hs
      by (by apply context_loop_starts).
    rewrite H in Hs. by vm_compute in Hs.
  - destruct recommended_courses as [| c l]; [done |]. intros _.
    unfold get_context_for_llm. by apply context_loop_starts.
  - intros i course Hi. unfold shows.
    destruct recommended_courses as [| c l]; [done |].
    change (get_context_for_llm (c :: l))
      with (foldl context_step
                  ("Here are the recommended courses:" +:+ newline +:+ newline)
                  (zip (seq 1 (length (c :: l))) (c :: l))).
    apply (context_loop_shows _ _ (S i, course)).
    apply list_elem_of_lookup. exists i.
    apply lookup_zip_with_Some. exists (S i), course. split_and!; [done | | done].
    apply lookup_seq. split; [done |]. by eapply lookup_lt_Some.
Qed.

End CourseContext.

Section NormalisedLevel.

Lemma canonical_level_understood (v : string) :
  v ∈ canonical_levels →
  dict_get (PyStr.lower v) CourseRAG.level_map = Some v ∧ PyStr.lower v = v.
Proof.
  unfold canonical_levels. rewrite !elem_of_cons.
  intros [-> | [-> | [-> | [-> | [-> | []%elem_of_nil]]]]]; by vm_compute.
Qed.

(** X15. A raw education level that is a synonym of the normaliser's table
    (up to case and surrounding white space) is normalised to a level the
    engine understands: the level pass for it keeps exactly the courses
    whose level is that canonical level, up to case. *)
Theorem normalised_level_filters_by_canonical
    (courses : list Course) (raw canonical : string) :
  dict_get (PyStr.strip (PyStr.lower raw)) UserProfileProcessor.level_map = Some canonical →
  CourseRAG.search_courses_by_level courses (_process_education_level raw)
  = filter (λ c, PyStr.lower (default "" (level c)) = canonical) courses.
Proof.
  intros Hraw.
  assert (_process_education_level raw = canonical) as ->.
  { unfold _process_education_level. destruct raw as [| c raw]; [by vm_compute in Hraw |].
    cbn [PyStr.truthy negb]. cbv zeta. by rewrite Hraw. }
  destruct (normaliser_level_values _ _ Hraw) as [Hc _].
  destruct (canonical_level_understood _ Hc) as [Hget Hlow].
  unfold CourseRAG.search_courses_by_level. rewrite Hget. simpl. by rewrite Hlow.
Qed.

Lemma normalised_level_witness :
  dict_get (PyStr.strip (PyStr.lower " Freshman ")) UserProfileProcessor.level_map = Some "1st year"
  ∧ CourseRAG.search_courses_by_level scenario_catalog (_process_education_level " Freshman ")
    = filter (λ c, PyStr.lower (default "" (level c)) = "1st year") scenario_catalog.
Proof.
  split; [reflexivity |].
  by apply (normalised_level_filters_by_canonical scenario_catalog " Freshman " "1st year").
Defined.

End NormalisedLevel.

(** * Further properties: the backfill *)

Section Backfill.

Import CourseRAG.

(** The backfill never goes past 12 courses, and it stops short of 12 only
    when every id of the list it walked is seen. *)
Lemma backfill_loop_fills (l : list Course) (st : gset string * list Course) :
  length st.2 ≤ 12 →
  length (foldl backfill_step st l).2 ≤ 12
  ∧ length st.2 ≤ length (foldl backfill_step st l).2
  ∧ (∀ x, x ∈ st.1 → x ∈ (foldl backfill_step st l).1)
  ∧ (12 ≤ length (foldl backfill_step st l).2
     ∨ ∀ c, c ∈ l → course_id c ∈ (foldl backfill_step st l).1).
Proof.
  revert st. induction l as [| c l IH]; intros st Hlen; cbn [foldl].
  - split_and!; [done | done | done |]. right. by intros c Hc%elem_of_nil.
  - assert (length (backfill_step st c).2 ≤ 12
            ∧ length st.2 ≤ length (backfill_step st c).2
            ∧ (∀ x, x ∈ st.1 → x ∈ (backfill_step st c).1)
            ∧ (12 ≤ length st.2 ∨ course_id c ∈ (backfill_step st c).1)) as (H1 & H2 & H3 & H4).
    { unfold backfill_step. case_bool_decide as Hnew; simpl.
      - case_bool_decide as Hroom; simpl.
        + rewrite length_app. simpl. split_and!; [lia | lia | |].
          * intros x Hx. apply elem_of_union. by right.
          * right. apply elem_of_union. left. by apply elem_of_singleton.
        + split_and!; [done | done | done | left; lia].
      - split_and!; [done | done | done |]. right.
        by destruct (decide (course_id c ∈ st.1)). }
    destruct (IH (backfill_step st c) H1) as (G1 & G2 & G3 & G4).
    split_and!; [done | lia | by intros x Hx; apply G3, H3 |].
    destruct G4 as [G4 | G4]; [by left |].
    destruct H4 as [H4 | H4]; [left; lia |].
    right. intros d [-> | Hd]%elem_of_cons; [by apply G3 | by apply G4].
Qed.

(** X16. The recommendations are short only for want of courses: there are
    at least 8 of them, unless every id of the level-pass universe is the
    id of a recommended course. *)
Theorem recommendations_short_only_when_exhausted (courses : list Course) (p : Profile) :
  8 ≤ length (get_recommended_courses courses p)
  ∨ ∀ c, c ∈ level_universe courses p →
         course_id c ∈ course_id <$> get_recommended_courses courses p.
Proof.
  unfold get_recommended_courses. fold (level_universe courses p).
  match goal with
  | |- context [foldl (merge_step _) _ ?all] =>
      pose proof (merged_inv (level_universe courses p) all) as Hinv;
      set (st := foldl (merge_step (level_universe courses p)) (∅, []) all) in *
  end.
  cbv zeta in Hinv. case_bool_decide as Hshort.
  - destruct (backfill_loop_fills (level_universe courses p) st) as (G1 & _ & _ & G4);
      [lia |].
    rewrite take_ge by done. destruct G4 as [G4 | G4]; [left; lia | right].
    intros c Hc. destruct Hinv as (Hseen & _ & _).
    specialize (G4 c Hc). rewrite Hseen in G4. by apply elem_of_list_to_set in G4.
  - left. rewrite length_take. lia.
Qed.

Lemma recommended_distinct_bounded (courses : list Course) (p : Profile) :
  length (get_recommended_courses courses p) ≤ 12
  ∧ NoDup (course_id <$> get_recommended_courses courses p).
Proof.
  unfold get_recommended_courses. fold (level_universe courses p).
  match goal with
  | |- context [foldl (merge_step _) _ ?all] =>
      pose proof (merged_inv (level_universe courses p) all) as Hinv
  end.
  cbv zeta in Hinv. destruct Hinv as (_ & Hnd & _). split.
  - rewrite length_take. lia.
  - rewrite fmap_take. exact (sublist_NoDup _ _ Hnd (sublist_take _ _)).
Qed.

End Backfill.

(** * Further properties: the request handlers *)

Section Handlers.

(** X17. The courses of a recommendation response are the first courses of
    the engine's recommendation, at most 12 with distinct ids; a positive
    [course_count] bounds their number, an absent one bounds it by 10, the
    count 0 sets no bound, and a negative count [-n] drops the last [n]
    recommendations. *)
Theorem response_courses_limited
    (courses : list Course) (raw_input : RawInput) (course_count : option Z) :
  App.get_recommendations courses raw_input course_count
    `prefix_of` CourseRAG.get_recommended_courses courses (process_user_input raw_input)
  ∧ length (App.get_recommendations courses raw_input course_count) ≤ 12
  ∧ NoDup (course_id <$> App.get_recommendations courses raw_input course_count)
  ∧ (∀ k, course_count = Some k → (0 < k)%Z →
          length (App.get_recommendations courses raw_input course_count) ≤ Z.to_nat k)
  ∧ (course_count = None →
     length (App.get_recommendations courses raw_input course_count) ≤ 10)
  ∧ (course_count = Some 0%Z →
     App.get_recommendations courses raw_input course_count
     = CourseRAG.get_recommended_courses courses (process_user_input raw_input))
  ∧ (∀ k, course_count = Some k → (k < 0)%Z →
          App.get_recommendations courses raw_input course_count
          = take (length (CourseRAG.get_recommended_courses courses
                            (process_user_input raw_input)) - Z.to_nat (- k))
                 (CourseRAG.get_recommended_courses courses (process_user_input raw_input))).
Proof.
  unfold App.get_recommendations. cbv zeta.
  destruct (recommended_distinct_bounded courses (process_user_input raw_input))
    as [Hlen Hnd].
  set (rec := CourseRAG.get_recommended_courses courses (process_user_input raw_input)) in *.
  clearbody rec. set (k0 := default 10%Z course_count).
  assert (∃ n, (if bool_decide (k0 ≠ 0%Z) && bool_decide (k0 < Z.of_nat (length rec))%Z
                then slice_to k0 rec else rec) = take n rec) as [n Hn].
  { destruct (_ && _); [| exists (length rec); by rewrite take_ge].
    unfold slice_to. destruct (0 <=? k0)%Z; by eexists. }
  split_and!.
  - rewrite Hn. exists (drop n rec). by rewrite take_drop.
  - rewrite Hn, length_take. lia.
  - rewrite Hn, fmap_take. exact (sublist_NoDup _ _ Hnd (sublist_take _ _)).
  - clear n Hn. intros k -> Hk. subst k0. simpl.
    rewrite (bool_decide_eq_true_2 (k ≠ 0%Z)) by lia.
    case_bool_decide as Hlt; simpl; [| lia].
    unfold slice_to. rewrite (proj2 (Z.leb_le 0 k)) by lia. rewrite length_take. lia.
  - clear n Hn. intros ->. subst k0. simpl.
    case_bool_decide as Hlt; simpl; [| lia].
    unfold slice_to. simpl. rewrite length_take. lia.
  - clear n Hn. intros ->. subst k0. simpl.
    reflexivity.
  - clear n Hn. intros k -> Hk. subst k0. simpl.
    rewrite (bool_decide_eq_true_2 (k ≠ 0%Z)) by lia.
    rewrite (bool_decide_eq_true_2 (k < Z.of_nat (length rec))%Z) by lia. simpl.
    unfold slice_to. by rewrite (proj2 (Z.leb_gt 0 k)) by lia.
Qed.

(** X18. A course search never gives a course more often than the catalog
    has it, whatever the four query parameters are; with no parameter it
    gives the whole catalog. *)
Theorem search_gives_catalog_courses
    (courses : list Course) (lvl cat semester keywords : string) :
  App.search_courses courses lvl cat semester keywords ⊆+ courses
  ∧ App.search_courses courses "" "" "" "" = courses.
Proof.
  split; [| done]. unfold App.search_courses.
  destruct (PyStr.truthy lvl); [apply sublist_submseteq, sublist_filter |].
  destruct (PyStr.truthy cat); [apply sublist_submseteq, sublist_filter |].
  destruct (PyStr.truthy semester); [apply sublist_submseteq, sublist_filter |].
  destruct (PyStr.truthy keywords); [| done]. cbv zeta.
  rewrite search_is_slice_of_ranking. unfold slice_to. simpl.
  etrans; [apply sublist_submseteq, sublist_take |].
  rewrite ranking_perm. apply sublist_submseteq, sublist_filter.
Qed.

(** X19. The categories of the category response are sorted, pairwise
    distinct and not empty, and they are exactly the categories that
    courses of the catalog have. *)
Theorem course_categories_sorted_distinct (courses : list Course) :
  StronglySorted String.le (App.get_course_categories courses)
  ∧ NoDup (App.get_course_categories courses)
  ∧ ∀ cat, cat ∈ App.get_course_categories courses
           ↔ cat ≠ "" ∧ ∃ c, c ∈ courses ∧ category c = Some cat.
Proof.
  unfold App.get_course_categories. cbv zeta. split_and!.
  - apply StronglySorted_merge_sort; apply _.
  - rewrite merge_sort_Permutation. apply NoDup_filter, NoDup_elements.
  - intros cat. rewrite merge_sort_Permutation, list_elem_of_filter, elem_of_elements,
      elem_of_list_to_set, list_elem_of_fmap.
    split.
    + intros [Ht (c & Hc & Hin)]. split; [by intros -> |].
      exists c. split; [done |]. destruct (category c) as [x |]; simpl in *; by subst.
    + intros [Hne (c & Hin & Hc)]. split; [by destruct cat |].
      exists c. by rewrite Hc.
Qed.

End Handlers.

(** * Further properties: the order of the recommendations *)

Section PassPriority.

Import CourseRAG.

Lemma merge_loop_first_ids (level_courses l : list Course) (seen : gset string)
    (uniq : list Course) :
  (foldl (merge_step level_courses) (seen, uniq) l).2
  = uniq ++ keep_first_ids seen (filter (λ c, c ∈ level_courses) l).
Proof.
  revert seen uniq. induction l as [| c l IH]; intros seen uniq; cbn [foldl].
  - by rewrite app_nil_r.
  - unfold merge_step at 2. cbn [fst snd]. rewrite filter_cons.
    destruct (decide (c ∈ level_courses)) as [Hc | Hc].
    + rewrite (bool_decide_eq_true_2 _ Hc), andb_true_r. cbn [keep_first_ids].
      destruct (decide (course_id c ∈ seen)) as [Hs | Hs].
      * rewrite bool_decide_eq_false_2 by (by intros H; apply H). apply IH.
      * rewrite bool_decide_eq_true_2 by done. rewrite IH. by rewrite <- app_assoc.
    + rewrite (bool_decide_eq_false_2 _ Hc), andb_false_r. apply IH.
Qed.

Lemma backfill_loop_extends (l : list Course) (st : gset string * list Course) :
  st.2 `prefix_of` (foldl backfill_step st l).2.
Proof.
  revert st. induction l as [| c l IH]; intros st; cbn [foldl]; [done |].
  etrans; [| apply IH]. unfold backfill_step.
  destruct (_ && _); [by apply prefix_app_r | done].
Qed.

(** X20. The recommendations begin with the courses of the career pass,
    then of the interest pass, then of the category pass that are in the
    level-pass universe, the first course of each id only, up to 12; when
    there are at least 8 of these, nothing else is recommended. *)
Theorem recommendations_follow_pass_priority (courses : list Course) (p : Profile) :
  take 12 (keep_first_ids ∅ (filter (λ c, c ∈ level_universe courses p)
                                    (merged_passes courses p)))
    `prefix_of` get_recommended_courses courses p
  ∧ (8 ≤ length (keep_first_ids ∅ (filter (λ c, c ∈ level_universe courses p)
                                          (merged_passes courses p))) →
     get_recommended_courses courses p
     = take 12 (keep_first_ids ∅ (filter (λ c, c ∈ level_universe courses p)
                                         (merged_passes courses p)))).
Proof.
  unfold get_recommended_courses, merged_passes. fold (level_universe courses p).
  match goal with
  | |- context [foldl (merge_step _) _ ?all] => set (passes := all)
  end.
  pose proof (merge_loop_first_ids (level_universe courses p) passes ∅ []) as Hkeep.
  rewrite app_nil_l in Hkeep. rewrite <- Hkeep.
  set (st := foldl (merge_step (level_universe courses p)) (∅, []) passes).
  case_bool_decide as Hshort.
  - split; [| lia]. rewrite take_ge by lia.
    destruct (backfill_loop_extends (level_universe courses p) st) as [extra ->].
    exists (take (12 - length st.2) extra). rewrite take_app. f_equal.
    apply take_ge. lia.
  - split; [done |]. done.
Qed.

Lemma pass_priority_witness :
  8 ≤ length (keep_first_ids ∅ (filter (λ c, c ∈ level_universe music_catalog empty_profile)
                                        (merged_passes music_catalog empty_profile)))
  ∧ get_recommended_courses music_catalog empty_profile
    = take 12 (keep_first_ids ∅ (filter (λ c, c ∈ level_universe music_catalog empty_profile)
                                        (merged_passes music_catalog empty_profile))).
Proof.
  assert (8 ≤ length (keep_first_ids ∅
                        (filter (λ c, c ∈ level_universe music_catalog empty_profile)
                                (merged_passes music_catalog empty_profile)))) as Hlen.
  { apply Nat.leb_le. by vm_compute. }
  split; [exact Hlen |].
  exact (proj2 (recommendations_follow_pass_priority music_catalog empty_profile) Hlen).
Defined.

End PassPriority.

(** * Further properties: the scores *)

Section Scores.

Import CourseRAG.

Lemma keyword_points_bound (c : Course) (k : string) : keyword_points c k ≤ 3.
Proof. unfold keyword_points. cbv zeta. repeat case_match; lia. Qed.

Lemma points_sum_bound (c : Course) (ks : list string) :
  sum_list (keyword_points c <$> ks) ≤ 3 * length ks.
Proof.
  induction ks as [| k ks IH]; [done |].
  rewrite fmap_cons. cbn [sum_list_with length]. pose proof (keyword_points_bound c k).
  unfold id at 1. lia.
Qed.

(** An interest of the table has at most five synonyms. *)
Lemma interest_synonyms_bound (k : string) (l : list string) :
  dict_get k interest_mapping = Some l → length l ≤ 5.
Proof.
  unfold interest_mapping, dict_get.
  repeat (case_decide; [intros [= <-]; simpl; lia |]). done.
Qed.

Lemma expansion_length (keywords : list string) :
  length (expansion keywords) ≤ 6 * length keywords.
Proof.
  unfold expansion. induction keywords as [| k ks IH]; [done |].
  rewrite bind_cons, length_app. cbn [length].
  destruct (dict_get k interest_mapping) as [l |] eqn:E; simpl.
  - pose proof (interest_synonyms_bound k l E). lia.
  - lia.
Qed.

(** The sum of the points adds up over the keywords and is bounded. *)
Lemma keyword_score_sum_facts (c : Course) (ks1 ks2 : list string) :
  keyword_score (ks1 ++ ks2) c = keyword_score ks1 c + keyword_score ks2 c
  ∧ keyword_score ks1 c ≤ 18 * length ks1
  ∧ ∀ k, dict_get k interest_mapping = None → keyword_score [k] c ≤ 3.
Proof.
  unfold keyword_score. split_and!.
  - unfold expansion. by rewrite bind_app, fmap_app, sum_list_with_app.
  - pose proof (points_sum_bound c (expansion ks1)).
    pose proof (expansion_length ks1). lia.
  - intros k Hk. unfold expansion. rewrite bind_cons, Hk. simpl.
    pose proof (keyword_points_bound c (PyStr.lower k)). lia.
Qed.

(** X21. The score the scoring loop gives a course adds up over the
    keywords: the score for two lists of keywords joined is the sum of the
    scores for each; it is at most 3 for each expanded keyword, so at most
    18 for each keyword given, and at most 3 for a keyword that is no key
    of the interest table. *)
Theorem course_score_additive_and_bounded (c : Course) (ks1 ks2 : list string) :
  course_score (expand_keywords (ks1 ++ ks2)) c
  = course_score (expand_keywords ks1) c + course_score (expand_keywords ks2) c
  ∧ course_score (expand_keywords ks1) c ≤ 18 * length ks1
  ∧ ∀ k, dict_get k interest_mapping = None → course_score (expand_keywords [k]) c ≤ 3.
Proof.
  rewrite !course_score_keyword_score.
  destruct (keyword_score_sum_facts c ks1 ks2) as (Hadd & Hbound & Hone).
  split_and!; [exact Hadd | exact Hbound |].
  intros k Hk. rewrite course_score_keyword_score. by apply Hone.
Qed.

Lemma split_from_all_space (s : string) :
  str_all PyStr.is_space s = true → PyStr.split_from None s = [].
Proof.
  induction s as [| c s IH]; simpl; [done |].
  intros [-> Hs]%andb_true_iff. by apply IH.
Qed.

Lemma startswith_chars (P : ascii → bool) (k t : string) :
  PyStr.startswith k t = true → str_all P t = true → str_all P k = true.
Proof.
  revert t. induction k as [| a k IH]; intros [| b t]; simpl; try done.
  case_decide; [subst | done]. intros Hk [-> Ht]%andb_true_iff. by apply (IH t).
Qed.

Lemma contains_chars (P : ascii → bool) (k s : string) :
  PyStr.contains k s = true → str_all P s = true → str_all P k = true.
Proof.
  induction s as [| c s IH]; simpl.
  - rewrite orb_false_r. intros H _. by apply (startswith_chars P k "").
  - intros [H | H]%orb_true_iff Hs; [by apply (startswith_chars P k (String c s)) |].
    apply andb_true_iff in Hs as [_ Hs]. by apply IH.
Qed.

Lemma filter_none {A} (P : A → Prop) `{∀ x, Decision (P x)} (l : list A) :
  (∀ x, x ∈ l → ¬ P x) → filter P l = [].
Proof.
  induction l as [| x l IH]; intros Hnone; [done |].
  rewrite filter_cons, decide_False by (apply Hnone; by left).
  apply IH. intros y Hy. apply Hnone. by right.
Qed.

(** No key of the career table occurs in white space. *)
Lemma career_keys_not_blank (goal : string) :
  str_all PyStr.is_space goal = true →
  Forall (λ entry, PyStr.contains (PyStr.lower entry.1) (PyStr.lower goal) = false)
         career_keywords.
Proof.
  intros Hg. rewrite (all_space_lower goal Hg).
  unfold career_keywords.
  repeat (apply Forall_cons; split;
          [destruct (PyStr.contains _ goal) eqn:E; [| done];
           apply (contains_chars PyStr.is_space) in E; [| done];
           vm_compute in E; discriminate E |]).
  by apply Forall_nil.
Qed.

Lemma career_loop_no_match (goal : string) (table : list (string * list string))
    (kws : list string) :
  Forall (λ entry, PyStr.contains (PyStr.lower entry.1) (PyStr.lower goal) = false) table →
  foldl (career_step goal) kws table = kws.
Proof.
  intros Hall. revert kws.
  induction Hall as [| e table He _ IH]; intros kws; cbn [foldl]; [done |].
  unfold career_step at 2. rewrite He. apply IH.
Qed.

(** X22. Without keywords the scored search finds nothing, whatever the
    limit; so the career pass finds nothing for a goal that is white space
    only. *)
Theorem no_keywords_no_courses (courses : list Course) :
  (∀ max_results, search_courses_by_keywords courses [] max_results = [])
  ∧ ∀ goal, str_all PyStr.is_space goal = true →
            search_courses_by_career_goal courses goal = [].
Proof.
  assert (∀ max_results, search_courses_by_keywords courses [] max_results = []) as Hnone.
  { intros m. rewrite search_is_slice_of_ranking.
    assert (ranking courses [] = []) as ->.
    { assert (filter (λ c, 0 < keyword_score [] c) courses = []) as Hf.
      { apply filter_none. intros c _. unfold keyword_score. simpl. lia. }
      apply Permutation_nil_r. by rewrite ranking_perm, Hf. }
    unfold slice_to. destruct (0 <=? m)%Z; apply take_nil. }
  split; [exact Hnone |].
  intros goal Hg. unfold search_courses_by_career_goal, career_goal_keywords.
  rewrite (career_loop_no_match goal career_keywords []) by (by apply career_keys_not_blank).
  rewrite (all_space_lower goal Hg). unfold PyStr.split.
  rewrite (split_from_all_space goal Hg). apply Hnone.
Qed.

End Scores.

(** * The scored search against the score of the specification *)

Section ScoredSearchPoints.

Import CourseRAG.

Lemma lower_app (a b : string) : PyStr.lower (a +:+ b) = PyStr.lower a +:+ PyStr.lower b.
Proof.
  induction a as [| c a IH]; [done |].
  rewrite append_cons. simpl. by rewrite IH, append_cons.
Qed.

(** The text the code builds is the combined lowercase text. *)
Lemma search_text_combined (c : Course) : search_text c = combined_lowercase_text c.
Proof.
  unfold search_text, combined_lowercase_text. cbn [PyStr.join].
  by rewrite !lower_app.
Qed.

Lemma match_points_keyword_points (c : Course) (k : string) :
  match_points c k = keyword_points c k.
Proof. unfold match_points, keyword_points. by rewrite search_text_combined. Qed.

Lemma total_points_keyword_score (keywords : list string) (c : Course) :
  total_points keywords c = keyword_score keywords c.
Proof.
  unfold total_points, keyword_score. f_equal.
  induction (expansion keywords) as [| k ks IH]; [done |].
  by rewrite !fmap_cons, match_points_keyword_points, IH.
Qed.

Lemma strongly_sorted_ext {A} (R R' : A → A → Prop) (l : list A) :
  (∀ x y, R x y → R' x y) → StronglySorted R l → StronglySorted R' l.
Proof.
  intros HR. induction 1 as [| x l Hl IH Hx]; constructor; [done |].
  eapply Forall_impl; [exact Hx | apply HR].
Qed.

(** C2, as the code has it. The scored keyword search gives a course, for
    each expanded keyword whose trimmed form occurs in the combined
    lowercase text of the course, 3 points when it is in the title, else 2
    when in the description, else 1 ([total_points]). The courses of total
    0 are left out; the others are ranked by descending total, the courses
    of one total in catalog order, so two runs agree. The result is the
    slice of that ranking up to [max_results]: its first [max_results]
    courses when [max_results] is not negative, and all but its last [n]
    courses when [max_results] is [-n]. *)
Theorem scored_search_ranks_by_points
    (courses : list Course) (keywords : list string) (max_results : Z) :
  ∃ ranked : list Course,
    ((0 ≤ max_results)%Z →
     search_courses_by_keywords courses keywords max_results
     = take (Z.to_nat max_results) ranked)
    ∧ ((max_results < 0)%Z →
       search_courses_by_keywords courses keywords max_results
       = take (length ranked - Z.to_nat (- max_results)) ranked)
    ∧ ranked ≡ₚ filter (λ c, 0 < total_points keywords c) courses
    ∧ StronglySorted (λ c1 c2, total_points keywords c2 ≤ total_points keywords c1) ranked
    ∧ ∀ s, 0 < s →
        filter (λ c, total_points keywords c = s) ranked
        = filter (λ c, total_points keywords c = s) courses.
Proof.
  exists (ranking courses keywords). split_and!.
  - intros Hm. rewrite search_is_slice_of_ranking. unfold slice_to.
    by rewrite (proj2 (Z.leb_le 0 max_results) Hm).
  - intros Hm. rewrite search_is_slice_of_ranking. unfold slice_to.
    by rewrite (proj2 (Z.leb_gt 0 max_results) Hm).
  - rewrite ranking_perm.
    rewrite (list_filter_iff (λ c, 0 < total_points keywords c)
                             (λ c, 0 < keyword_score keywords c)); [done |].
    intros c. by rewrite total_points_keyword_score.
  - eapply strongly_sorted_ext; [| apply ranking_sorted].
    intros x y. simpl. by rewrite !total_points_keyword_score.
  - intros s Hs.
    rewrite !(list_filter_iff (λ c, total_points keywords c = s)
                              (λ c, keyword_score keywords c = s))
      by (intros c; by rewrite total_points_keyword_score).
    by apply ranking_stable.
Qed.

Lemma scored_search_points_witness :
  (0 ≤ 5)%Z
  ∧ ∃ ranked : list Course,
      search_courses_by_keywords scenario_catalog ["programming"] 5
      = take (Z.to_nat 5) ranked
      ∧ ranked ≡ₚ filter (λ c, 0 < total_points ["programming"] c) scenario_catalog
      ∧ StronglySorted
          (λ c1 c2, total_points ["programming"] c2 ≤ total_points ["programming"] c1)
          ranked.
Proof.
  split; [lia |].
  destruct (scored_search_ranks_by_points scenario_catalog ["programming"] 5)
    as (ranked & Hpos & _ & Hperm & Hsorted & _).
  exists ranked. split_and!; [apply Hpos; lia | exact Hperm | exact Hsorted].
Defined.

(** C2, as stated, fails twice. The keyword " art ", lowercased, is not in
    the combined text of the course "Smart Cities", yet the course is found
    for it, because the code trims the keyword first. And for the maximum
    -1 the search over the eleven music courses returns ten of them, which
    is no truncation to the maximum asked for. *)
Lemma scored_search_trims_and_slices :
  PyStr.contains (PyStr.lower " art ") (combined_lowercase_text smart_course) = false
  ∧ search_courses_by_keywords [smart_course] [" art "] 10 = [smart_course]
  ∧ search_courses_by_keywords music_catalog ["music"] (-1) = take 10 music_catalog
  ∧ ¬ (Z.of_nat (length (search_courses_by_keywords music_catalog ["music"] (-1))) ≤ -1)%Z.
Proof.
  split_and!; [by vm_compute | by vm_compute | by vm_compute |].
  intros H. revert H. apply Z.lt_nge. lia.
Qed.

End ScoredSearchPoints.

(** * The fallback of the interest pass *)

Section InterestFallback.

Import CourseRAG.

Lemma keep_first_ids_seen (seen : gset string) (l : list Course) :
  (∀ c, c ∈ l → course_id c ∈ seen) → keep_first_ids seen l = [].
Proof.
  induction l as [| c l IH]; intros Hall; [done |]. cbn [keep_first_ids].
  rewrite decide_True by (apply Hall; by left).
  apply IH. intros d Hd. apply Hall. by right.
Qed.

(** Courses whose ids are seen, or come earlier in the list, add nothing. *)
Lemma keep_first_ids_known (seen : gset string) (l1 l2 : list Course) :
  (∀ c, c ∈ l2 → course_id c ∈ seen ∨ course_id c ∈ course_id <$> l1) →
  keep_first_ids seen (l1 ++ l2) = keep_first_ids seen l1.
Proof.
  revert seen. induction l1 as [| x l1 IH]; intros seen Hall.
  - rewrite app_nil_l. apply keep_first_ids_seen. intros c Hc.
    destruct (Hall c Hc) as [H | H]; [done | by apply elem_of_nil in H].
  - change ((x :: l1) ++ l2) with (x :: (l1 ++ l2)). cbn [keep_first_ids].
    destruct (decide (course_id x ∈ seen)) as [Hx | Hx].
    + apply IH. intros c Hc. destruct (Hall c Hc) as [H | H]; [by left |].
      rewrite fmap_cons in H. apply elem_of_cons in H as [-> | H]; [by left | by right].
    + f_equal. apply IH. intros c Hc. destruct (Hall c Hc) as [H | H].
      * left. apply elem_of_union. by right.
      * rewrite fmap_cons in H. apply elem_of_cons in H as [-> | H]; [| by right].
        left. apply elem_of_union. left. by apply elem_of_singleton.
Qed.

(** Every id of the list is seen or kept. *)
Lemma keep_first_ids_covers (seen : gset string) (l : list Course) (c : Course) :
  c ∈ l → course_id c ∈ seen ∨ course_id c ∈ course_id <$> keep_first_ids seen l.
Proof.
  revert seen. induction l as [| x l IH]; intros seen Hc; [by apply elem_of_nil in Hc |].
  cbn [keep_first_ids]. apply elem_of_cons in Hc as [-> | Hc].
  - destruct (decide (course_id x ∈ seen)); [by left |]. right. rewrite fmap_cons. by left.
  - destruct (decide (course_id x ∈ seen)) as [Hx | Hx]; [by apply IH |].
    destruct (IH ({[course_id x]} ∪ seen) Hc) as [H | H].
    + apply elem_of_union in H as [H | H]; [| by left].
      apply elem_of_singleton in H. right. rewrite fmap_cons, H. by left.
    + right. rewrite fmap_cons. by right.
Qed.

(** Courses of distinct ids, none of them seen, are all kept. *)
Lemma keep_first_ids_distinct (seen : gset string) (l : list Course) :
  NoDup (course_id <$> l) → (∀ c, c ∈ l → course_id c ∉ seen) →
  keep_first_ids seen l = l.
Proof.
  revert seen. induction l as [| x l IH]; intros seen Hnd Hnew; [done |].
  rewrite fmap_cons in Hnd. apply NoDup_cons in Hnd as [Hx Hnd].
  cbn [keep_first_ids]. rewrite decide_False by (apply Hnew; by left).
  f_equal. apply IH; [done |]. intros c Hc Hin.
  apply elem_of_union in Hin as [Hin | Hin]; [| by apply (Hnew c); [right |]].
  apply elem_of_singleton in Hin. apply Hx. rewrite <- Hin. by apply list_elem_of_fmap_2.
Qed.

(** With no interests, the merge walks the career pass and then the whole
    level-pass universe, after which every id of the universe is seen:
    neither the category pass nor the backfill adds a course. *)
Lemma empty_interests_result (courses : list Course) (p : Profile) :
  interests p = [] →
  get_recommended_courses courses p
  = take 12 (keep_first_ids ∅ (filter (λ c, c ∈ level_universe courses p)
                                      (career_pass courses p)
                               ++ level_universe courses p)).
Proof.
  intros Hi. unfold get_recommended_courses, career_pass.
  fold (level_universe courses p). rewrite Hi.
  set (lu := level_universe courses p).
  set (career := if PyStr.truthy (career_goal p)
                 then search_courses_by_career_goal courses (career_goal p) else []).
  set (cats := foldl (λ acc cat, acc ++ search_courses_by_category courses cat) []
                     (preferred_categories p)).
  set (st := foldl (merge_step lu) (∅, []) (career ++ lu ++ cats)).
  assert (st.2 = keep_first_ids ∅ (filter (λ c, c ∈ lu) career ++ lu)) as Hkeep.
  { unfold st. rewrite (merge_loop_first_ids lu (career ++ lu ++ cats) ∅ []), app_nil_l.
    rewrite !filter_app, (filter_all (λ c, c ∈ lu) lu) by done.
    rewrite app_assoc. apply keep_first_ids_known.
    intros c [Hc _]%list_elem_of_filter. right. rewrite fmap_app.
    apply elem_of_app. right. by apply list_elem_of_fmap_2. }
  assert (merge_invariant lu st) as (Hseen & _ & _)
    by apply merge_loop_inv, merge_inv_init.
  case_bool_decide as Hshort; [| by rewrite Hkeep].
  rewrite backfill_loop_seen; [by rewrite Hkeep |].
  intros c Hc. rewrite Hseen, Hkeep. apply elem_of_list_to_set.
  destruct (keep_first_ids_covers ∅ (filter (λ c, c ∈ lu) career ++ lu) c) as [H | H];
    [apply elem_of_app; by right | by apply elem_of_empty in H | done].
Qed.

(** C9, as the code has it. When the list of interests is empty, the
    interest pass is the whole level-pass universe: the result is the first
    12 of the career-pass courses of the universe followed by the universe,
    the first course of each id only. So with no interests, no career goal
    and no preferred categories the result is the first 12 courses of the
    universe in catalog order, the first course of each id only: exactly
    the first 12 courses of the universe when the ids of the catalog are
    unique. *)
Theorem empty_interests_fall_back_to_universe (courses : list Course) (p : Profile) :
  interests p = [] →
  get_recommended_courses courses p
  = take 12 (keep_first_ids ∅ (filter (λ c, c ∈ level_universe courses p)
                                      (career_pass courses p)
                               ++ level_universe courses p))
  ∧ (career_goal p = "" → preferred_categories p = [] →
     get_recommended_courses courses p
     = take 12 (keep_first_ids ∅ (level_universe courses p)))
  ∧ (career_goal p = "" → preferred_categories p = [] →
     NoDup (course_id <$> courses) →
     get_recommended_courses courses p = take 12 (level_universe courses p)).
Proof.
  intros Hi. pose proof (empty_interests_result courses p Hi) as Hres.
  assert (career_goal p = "" →
          get_recommended_courses courses p
          = take 12 (keep_first_ids ∅ (level_universe courses p))) as Hplain.
  { intros Hg. rewrite Hres. unfold career_pass. by rewrite Hg. }
  split_and!; [exact Hres | by intros Hg _; apply Hplain |].
  intros Hg _ Hnd. rewrite (Hplain Hg). f_equal.
  apply keep_first_ids_distinct; [| by intros c _ H%elem_of_empty].
  eapply sublist_NoDup; [exact Hnd |]. apply fmap_sublist, level_universe_sublist.
Qed.

Lemma empty_interests_witness :
  interests first_year_profile = []
  ∧ get_recommended_courses scenario_catalog first_year_profile
    = take 12 (keep_first_ids ∅
                 (filter (λ c, c ∈ level_universe scenario_catalog first_year_profile)
                         (career_pass scenario_catalog first_year_profile)
                  ++ level_universe scenario_catalog first_year_profile)).
Proof.
  split; [reflexivity |].
  exact (proj1 (empty_interests_fall_back_to_universe scenario_catalog first_year_profile
                  eq_refl)).
Defined.

(** C9, as stated, fails: of two courses of one id only the first is
    recommended, though both are among the first 12 of the universe. *)
Lemma twins_are_not_both_recommended :
  interests empty_profile = []
  ∧ career_goal empty_profile = ""
  ∧ preferred_categories empty_profile = []
  ∧ get_recommended_courses twin_catalog empty_profile = [twin_first]
  ∧ take 12 (level_universe twin_catalog empty_profile) = [twin_first; twin_second]
  ∧ get_recommended_courses twin_catalog empty_profile
    ≠ take 12 (level_universe twin_catalog empty_profile).
Proof.
  assert (get_recommended_courses twin_catalog empty_profile = [twin_first]) as Hres
    by (by vm_compute).
  split_and!; [done | done | done | exact Hres | done |].
  rewrite Hres. intros H. by injection H.
Qed.

End InterestFallback.
